(** * Report client: creation loop and polling loop

    A shallow embedding of [app/api.py], [app/settings.py] and
    [app/exceptions.py].  The two coroutine classes [ReportCreator] and
    [ReportChecker] are modelled as functions from a _script_ (what the
    environment answers: the identifiers drawn by [uuid.uuid4], the replies
    of the server, the readings of the clock) to the _trace_ of what the
    coroutine does (requests, sleeps, log records, file appends) together
    with the way the call ends. *)

From Stdlib Require Import Bool List ZArith QArith Lia.
From Stdlib Require Import Ascii String DecimalString.
Import ListNotations.

Local Open Scope list_scope.
Local Open Scope string_scope.

(** ** Python values used by the program *)

(** The one-character string holding a line feed (Python's ["\n"] escape;
    a Rocq string keeps a backslash as it is). *)
Definition LF : string := String (ascii_of_nat 10) "".

(** [str.isspace] on the code points a character of a Rocq string can
    hold (those below 256): tab to carriage return, the four separators,
    the space, U+0085 and U+00A0. *)
Definition is_space (c : ascii) : bool :=
  let n := nat_of_ascii c in
  ((9 <=? n) && (n <=? 13) || (28 <=? n) && (n <=? 32) ||
   (n =? 133) || (n =? 160))%nat.

(** [str.rstrip()] without argument. *)
Fixpoint rstrip (s : string) : string :=
  match s with
  | "" => ""
  | String c rest =>
      match rstrip rest with
      | "" => if is_space c then "" else String c ""
      | kept => String c kept
      end
  end.

Definition upper (c : ascii) : ascii :=
  let n := nat_of_ascii c in
  if ((97 <=? n) && (n <=? 122))%nat then ascii_of_nat (n - 32) else c.

Definition lower (c : ascii) : ascii :=
  let n := nat_of_ascii c in
  if ((65 <=? n) && (n <=? 90))%nat then ascii_of_nat (n + 32) else c.

Fixpoint string_map (f : ascii -> ascii) (s : string) : string :=
  match s with
  | "" => ""
  | String c rest => String (f c) (string_map f rest)
  end.

(** [str.capitalize()]. *)
Definition capitalize (s : string) : string :=
  match s with
  | "" => ""
  | String c rest => String (upper c) (string_map lower rest)
  end.

(** Keyword arguments of [str.format], already turned into text; the
    positional argument of a [{}] field is bound to the empty name. *)
Definition kwargs := list (string * string).

Fixpoint kwargs_get (name : string) (kw : kwargs) : string :=
  match kw with
  | [] => ""
  | (k, v) :: kw' => if String.eqb k name then v else kwargs_get name kw'
  end.

(** [str.format] for templates made of plain text and [{name}] fields:
    [field] is the name read so far when the scan is inside braces. *)
Fixpoint format_from (field : option string) (tpl : string) (kw : kwargs)
  : string :=
  match tpl with
  | "" => ""
  | String c rest =>
      match field with
      | None =>
          if Ascii.eqb c "{" then format_from (Some "") rest kw
          else String c (format_from None rest kw)
      | Some name =>
          if Ascii.eqb c "}" then kwargs_get name kw ++ format_from None rest kw
          else format_from (Some (name ++ String c "")) rest kw
      end
  end.

Definition format (tpl : string) (kw : kwargs) : string :=
  format_from None tpl kw.

Definition str_of_Z (z : Z) : string := NilZero.string_of_int (Z.to_int z).
Definition str_of_nat (n : nat) : string := NilZero.string_of_uint (Nat.to_uint n).

(** Decoded JSON, as [json.loads] builds it. *)
#[local] Set Warnings "-register-all".
Inductive json : Type :=
| JNull
| JBool (b : bool)
| JInt (z : Z)
| JFloat (q : Q)
| JString (s : string)
| JArray (items : list json)
| JObject (members : list (string * json)).

(** ** [settings.py] *)

Module st.

(** Time intervals, in seconds: three integers and one fraction. *)
Definition MIN_TIME_FOR_RETRIEVING_REPORT_IN_SECONDS : Z := 30.
Definition MAX_TIME_FOR_RETRIEVING_REPORT_IN_SECONDS : Z := 300.
Definition TIME_BETWEEN_REQUESTS_FOR_CREATING_REPORTS_IN_SECONDS : Z := 60.
Definition TIME_BETWEEN_GET_REQUESTS_IN_SECONDS : Q := 0.8.

(** Status codes from the API. *)
Definition REPORT_RETRIEVED_STATUS_CODE : Z := 200.
Definition REQUESTS_FOR_CREATING_REPORT_SUCCESSFULLY_SENT_STATUS_CODE : Z := 201.
Definition REPORT_STILL_NOT_AVAILABLE_STATUS_CODE : Z := 202.
Definition REPORT_ALREADY_EXISTS_STATUS_CODE : Z := 409.

(** Messages. *)
Definition POST_REQUEST_BASE_MESSAGE : string :=
  "request to create report with id={report_id}".

Definition TRYING_AGAIN_MESSAGE : string := LF ++ "Trying again...".

Definition CONNECTION_FAILED_MESSAGE : string :=
  "Connection failed. " ++ TRYING_AGAIN_MESSAGE.

Definition TIME_FOR_CREATING_REPORT_PASSED_MESSAGE : string :=
  "Time to create report with id ={report_id} has expired!".

Definition UNEXPECTED_STATUS_CODE_FROM_API_MESSAGE : string :=
  "Unexpected status code from API '{status_code} " ++
  "{reason_phrase}' for url '{url}'".

Definition POST_REQUEST_WAS_SENT_SUCCESSFULLY_MESSAGE : string :=
  capitalize POST_REQUEST_BASE_MESSAGE ++ " sent successfully" ++ LF ++
  "Waiting for {time} sec before starting to check if the report is ready...".

Definition REPORT_SUCCESSFULLY_RETRIEVED_MESSAGE : string :=
  "Report {} retrieved successfully!".

Definition REPORT_STILL_NOT_AVAILABLE_MESSAGE : string :=
  "Report with id={report_id} still not available..." ++ LF ++
  "time elapsed since request to create report: {time_passed} seconds" ++ LF ++
  "GET-requests amount = {count}".

(** The line written to [results.csv]: in the Python source the literal is
    ["{timestamp};{value}\\n\n"], that is the two fields, a backslash, the
    letter n, and a line feed. *)
Definition LINE_FOR_CSV : string := "{timestamp};{value}\n" ++ LF.

End st.

(** ** HTTP responses, exceptions ([exceptions.py]) and events *)

Record Response : Type := {
  status_code : Z;
  reason_phrase : string;
  url : string;
  headers : list (string * string);
  text : string
}.

(** The values of the header lines named [key], in order; httpx keeps
    the names in lower case. *)
Fixpoint headers_items (h : list (string * string)) (key : string)
  : list string :=
  match h with
  | [] => []
  | (k, v) :: h' =>
      if String.eqb (string_map lower k) key then v :: headers_items h' key
      else headers_items h' key
  end.

(** [response.headers[key]]: the values of the lines of that name joined
    with a comma and a space; [None] stands for [KeyError]. *)
Definition headers_getitem (h : list (string * string)) (key : string)
  : option string :=
  match headers_items h key with
  | [] => None
  | items => Some (String.concat ", " items)
  end.

Inductive exn : Type :=
| HTTPStatusError (response : Response)
| UnexpectedAPIStatusCode (response : Response)
| TooMuchTimePassed (report_id : string)
| ConnectTimeout
| KeyError (key : string)
| ValueError
| JSONDecodeError
| TypeError
| SystemExit (code : option Z).

(** The messages the two exceptions of [exceptions.py] are built with. *)
Definition UnexpectedAPIStatusCode_message (response : Response) : string :=
  format st.UNEXPECTED_STATUS_CODE_FROM_API_MESSAGE
    [("status_code", str_of_Z (status_code response));
     ("reason_phrase", reason_phrase response);
     ("url", url response)].

Definition TooMuchTimePassed_message (report_id : string) : string :=
  format st.TIME_FOR_CREATING_REPORT_PASSED_MESSAGE [("report_id", report_id)].

(** The exit status of the interpreter when [SystemExit(code)] reaches the
    top level: no code ([None]) counts as zero. *)
Definition exit_status (code : option Z) : Z :=
  match code with
  | None => 0
  | Some n => n
  end.

Inductive level : Type := DEBUG | INFO | WARNING | ERROR.

(** What is handed to the logger: a message, or an exception object. *)
Inductive logged : Type :=
| LStr (message : string)
| LExn (ex : exn).

(** Instance state of [ReportChecker.__init__]. *)
Record ReportChecker : Type := {
  report_id : string;
  timestamp_created : Q
}.

Inductive event : Type :=
| Sleep (seconds : Q)
| Post (url : string) (data : json)
| Get (url : string)
| Log (lvl : level) (msg : logged)
| Gather (checker : ReportChecker) (checker_sleep creator_sleep : bool)
| Append (file : string) (line : string).

Definition trace := list event.

(** How a call ends: it returns, an exception leaves it, or the script of
    the environment is used up while the coroutine waits. *)
Inductive outcome : Type :=
| Returned
| Raised (e : exn)
| Suspended.

Definition prepend (t : trace) (r : trace * outcome) : trace * outcome :=
  ((t ++ fst r)%list, snd r).

Infix "+++" := prepend (at level 61, right associativity).

(** The functions of the Python libraries the program calls on data. *)
Record Runtime : Type := {
  (** [datetime.strptime(s, '%a, %d %b %Y %H:%M:%S %Z').timestamp()];
      [None] stands for [ValueError]. *)
  strptime_timestamp : string -> option Q;
  (** [json.loads] behind [response.json()]; [None] stands for
      [JSONDecodeError]. *)
  json_loads : string -> option json;
  (** How [str.format] prints a float. *)
  format_float : Q -> string;
  (** How [str.format] prints a decoded value that is not a string. *)
  format_json : json -> string;
  (** [round(x, 1)]. *)
  round1 : Q -> Q
}.

(** The environment's side of one HTTP exchange. *)
Inductive reply : Type :=
| Responded (response : Response)
| TimedOut.                       (* the client raises [httpx.ConnectTimeout] *)

(** One creation attempt: the identifier [uuid.uuid4()] returns and what
    comes back for the POST. *)
Record attempt : Type := {
  uuid4 : string;
  post_reply : reply
}.

(** One polling step: what comes back for the GET, and what
    [datetime.utcnow().timestamp()] reads if it is called afterwards. *)
Record poll_step : Type := {
  get_reply : reply;
  utcnow : Q
}.

(** ** [api.py] *)

Inductive cls : Type := ReportCreator_cls | ReportChecker_cls.

Definition _expected_2xx_status_codes (c : cls) : list Z :=
  match c with
  | ReportCreator_cls =>
      [st.REQUESTS_FOR_CREATING_REPORT_SUCCESSFULLY_SENT_STATUS_CODE]
  | ReportChecker_cls =>
      [st.REPORT_RETRIEVED_STATUS_CODE;
       st.REPORT_STILL_NOT_AVAILABLE_STATUS_CODE]
  end.

Definition _sleeping_time (c : cls) : Z :=
  match c with
  | ReportCreator_cls =>
      st.TIME_BETWEEN_REQUESTS_FOR_CREATING_REPORTS_IN_SECONDS
  | ReportChecker_cls => st.MIN_TIME_FOR_RETRIEVING_REPORT_IN_SECONDS
  end.

(** [if sleep: await asyncio.sleep(self._sleeping_time)]. *)
Definition sleep_before (c : cls) (sleep : bool) : trace :=
  if sleep then [Sleep (inject_Z (_sleeping_time c))] else [].

(** [response.raise_for_status()] of httpx, which is not part of the
    repository: a status of 400 or more raises [HTTPStatusError], a
    status from 200 to 299 never does.  On the other statuses (below 200,
    from 300 to 399) httpx raises as well in its later versions; the
    statements below about single responses are restricted to 200..299
    and 400..599, where this definition and httpx agree. *)
Definition raise_for_status (response : Response) : option exn :=
  if (400 <=? status_code response)%Z then Some (HTTPStatusError response)
  else None.

(** [ReportBase._check_response]; [Some e] when [e] is raised. *)
Definition _check_response (c : cls) (response : Response) : option exn :=
  match raise_for_status response with
  | Some e => Some e
  | None =>
      if negb (existsb (Z.eqb (status_code response))
                 (_expected_2xx_status_codes c))
      then Some (UnexpectedAPIStatusCode response)
      else None
  end.

(** What an [except] clause leaves to do once it has run. *)
Inductive next : Type :=
| Return                 (* the call returns *)
| Raise (e : exn)        (* [e] leaves the frame *)
| Rerun (sleep : bool).  (* the loop is entered again with this flag *)

(** [_check_exception]: the no-op of [ReportBase], overridden by
    [ReportCreator]. *)
Definition _check_exception (c : cls) (response : Response) : trace * next :=
  match c with
  | ReportChecker_cls => ([], Return)
  | ReportCreator_cls =>
      let response_text := rstrip (text response) in
      if (status_code response =? st.REPORT_ALREADY_EXISTS_STATUS_CODE)%Z
      then ([Log WARNING (LStr (response_text ++ st.TRYING_AGAIN_MESSAGE))],
            Rerun false)
      else ([Log WARNING (LStr response_text)], Raise (SystemExit (Some 0%Z)))
  end.

(** The [except] clauses of [ReportBase._run], applied to an exception
    that leaves [_send_request]. *)
Definition _run_except (c : cls) (e : exn) : trace * next :=
  match e with
  | HTTPStatusError response =>
      let (t, n) := _check_exception c response in
      ((Log ERROR (LExn e) :: t)%list, n)
  | UnexpectedAPIStatusCode _ =>
      ([Log ERROR (LExn e)], Raise (SystemExit None))
  | _ => ([], Raise e)
  end.

(** The [except exc.TooMuchTimePassed] clause [ReportChecker._run] puts
    around [super()._run(sleep)]. *)
Definition ReportChecker_run_except (r : trace * next) : trace * next :=
  match r with
  | (t, Raise (TooMuchTimePassed id)) =>
      ((t ++ [Log ERROR (LExn (TooMuchTimePassed id))])%list, Return)
  | _ => r
  end.

(** The [except httpx.ConnectTimeout] clause of [connect], which calls
    [connect(sleep)] again with the flag it was called with. *)
Definition connect_except (sleep : bool) (r : trace * next) : trace * next :=
  match r with
  | (t, Raise ConnectTimeout) =>
      ((t ++ [Log WARNING (LStr st.CONNECTION_FAILED_MESSAGE)])%list,
       Rerun sleep)
  | _ => r
  end.

(** All the handlers an exception raised in [_send_request] meets on its
    way out of [connect(sleep)]. *)
Definition catch (c : cls) (sleep : bool) (e : exn) : trace * next :=
  match c with
  | ReportCreator_cls => connect_except sleep (_run_except c e)
  | ReportChecker_cls =>
      connect_except sleep (ReportChecker_run_except (_run_except c e))
  end.

(** An exception [e] leaves [_send_request] inside [connect(sleep)]: the
    handlers run, and then the call returns, or an exception leaves
    [connect], or the loop is entered [again]. *)
Definition unwind (c : cls) (sleep : bool) (e : exn)
  (again : bool -> trace * outcome) : trace * outcome :=
  let (t, n) := catch c sleep e in
  t +++
  match n with
  | Return => ([], Returned)
  | Raise e' => ([], Raised e')
  | Rerun s => again s
  end.

Section Loops.

Context (rt : Runtime).

(** How [str.format] prints a decoded value: a string as it is. *)
Definition format_value (v : json) : string :=
  match v with
  | JString s => s
  | _ => format_json rt v
  end.

(** *** [ReportCreator] *)

(** [ReportCreator.__get_timestamp_from_response]. *)
Definition __get_timestamp_from_response (response : Response) : exn + Q :=
  match headers_getitem (headers response) "date" with
  | None => inl (KeyError "date")
  | Some datetime_created_str =>
      match strptime_timestamp rt datetime_created_str with
      | None => inl ValueError
      | Some timestamp => inr timestamp
      end
  end.

(** The info record of a creation request that went through. *)
Definition post_request_was_sent (report_id : string) : event :=
  Log INFO (LStr
    (format st.POST_REQUEST_WAS_SENT_SUCCESSFULLY_MESSAGE
       [("report_id", report_id);
        ("time", str_of_Z st.MIN_TIME_FOR_RETRIEVING_REPORT_IN_SECONDS)])).

(** The body of the POST: [json.dumps] of this object. *)
Definition post_data (report_id : string) : json :=
  JObject [("id", JString report_id)].

(** [ReportCreator._send_request] up to the call of [asyncio.gather]:
    either an exception leaves it, or the checker to gather is built. *)
Definition ReportCreator_send_request (a : attempt)
  : trace * (exn + ReportChecker) :=
  let report_id := uuid4 a in
  let post := Post "reports" (post_data report_id) in
  match post_reply a with
  | TimedOut => ([post], inl ConnectTimeout)
  | Responded response =>
      match _check_response ReportCreator_cls response with
      | Some e => ([post], inl e)
      | None =>
          match __get_timestamp_from_response response with
          | inl e => ([post], inl e)
          | inr datetime_created =>
              ([post; post_request_was_sent report_id],
               inr {| report_id := report_id;
                      timestamp_created := datetime_created |})
          end
      end
  end.

(** [ReportCreator._run(sleep)] inside [connect(sleep0)], as the creator's
    own thread of control: after a 201 the checker is handed to
    [asyncio.gather] together with [self._run()], whose [sleep] defaults to
    [True], and the trace goes on with that call.  What the gathered
    checkers do is not part of this function: the trace holds the events
    of the creator alone, and the outcome is the one of the creator's own
    calls, so an exception that [asyncio.gather] would raise again from a
    checker is not in it. *)
Fixpoint ReportCreator_run (sleep0 sleep : bool) (script : list attempt)
  : trace * outcome :=
  sleep_before ReportCreator_cls sleep +++
  match script with
  | [] => ([], Suspended)
  | a :: rest =>
      let (t, r) := ReportCreator_send_request a in
      t +++
      match r with
      | inr report_checker =>
          [Gather report_checker true true] +++
          ReportCreator_run sleep0 true rest
      | inl e =>
          unwind ReportCreator_cls sleep0 e
            (fun s => ReportCreator_run sleep0 s rest)
      end
  end.

(** [ReportCreator().connect(sleep)]. *)
Definition ReportCreator_connect (sleep : bool) (script : list attempt)
  : trace * outcome :=
  ReportCreator_run sleep sleep script.

(** *** [ReportChecker] *)

Section Checker.

Context (self : ReportChecker).

(** The request of [__make_request_and_check_response]. *)
Definition get_report : event := Get ("reports/" ++ report_id self).

(** The error record of [ReportChecker._run] when the time is up. *)
Definition expired_log : event :=
  Log ERROR (LExn (TooMuchTimePassed (report_id self))).

(** [time_elapsed > MAX] on the exact difference of the two readings. *)
Definition time_is_up (now : Q) : bool :=
  negb (Qle_bool (now - timestamp_created self)
          (inject_Z st.MAX_TIME_FOR_RETRIEVING_REPORT_IN_SECONDS)).

(** [ReportChecker.__check_time_elapsed], given the reading of the clock. *)
Definition __check_time_elapsed (now : Q) : exn + Q :=
  let time_elapsed := (now - timestamp_created self)%Q in
  if time_is_up now then inl (TooMuchTimePassed (report_id self))
  else inr (round1 rt time_elapsed).

(** [response.json()['value']]; the members of a decoded object are the
    items of the Python dict, one per key. *)
Definition json_value (response : Response) : exn + json :=
  match json_loads rt (text response) with
  | None => inl JSONDecodeError
  | Some (JObject members) =>
      match find (fun kv => String.eqb (fst kv) "value") members with
      | Some kv => inr (snd kv)
      | None => inl (KeyError "value")
      end
  | Some _ => inl TypeError
  end.

(** The line of [ReportChecker.__add_new_line_to_csv]. *)
Definition csv_line (value : json) : string :=
  format st.LINE_FOR_CSV
    [("timestamp", format_float rt (timestamp_created self));
     ("value", format_value value)].

(** [ReportChecker.__add_new_line_to_csv]. *)
Definition __add_new_line_to_csv (value : json) : trace :=
  let line := csv_line value in
  [Append "results.csv" line].

(** The info record of a report that is ready. *)
Definition report_successfully_retrieved : event :=
  Log INFO (LStr (format st.REPORT_SUCCESSFULLY_RETRIEVED_MESSAGE
                    [("", report_id self)])).

(** [ReportChecker.__report_retrieved]; [Some e] when [e] is raised. *)
Definition __report_retrieved (response : Response) : trace * option exn :=
  let info := report_successfully_retrieved in
  match json_value response with
  | inl e => ([info], Some e)
  | inr value => ((info :: __add_new_line_to_csv value)%list, None)
  end.

(** The debug record of one turn of the [while] loop. *)
Definition still_not_available (time_passed : Q) (count : nat) : event :=
  Log DEBUG (LStr (format st.REPORT_STILL_NOT_AVAILABLE_MESSAGE
                     [("report_id", report_id self);
                      ("time_passed", format_float rt time_passed);
                      ("count", str_of_nat count)])).

(** [ReportChecker._send_request] inside [_run] inside [connect(sleep0)],
    from the point where a GET is about to be sent; [count] is the local
    counter of the [while] loop.  An exception goes through [catch]; when
    [connect] is entered again the loop starts afresh on the rest of the
    script. *)
Fixpoint ReportChecker_poll (sleep0 : bool) (count : nat)
  (script : list poll_step) : trace * outcome :=
  match script with
  | [] => ([], Suspended)
  | step :: rest =>
      let raising (e : exn) : trace * outcome :=
        unwind ReportChecker_cls sleep0 e
          (fun s => sleep_before ReportChecker_cls s +++
                    ReportChecker_poll sleep0 0 rest) in
      [get_report] +++
      match get_reply step with
      | TimedOut => raising ConnectTimeout
      | Responded response =>
          match _check_response ReportChecker_cls response with
          | Some e => raising e
          | None =>
              if (status_code response =? st.REPORT_RETRIEVED_STATUS_CODE)%Z
              then
                match __report_retrieved response with
                | (t, None) => (t, Returned)
                | (t, Some e) => t +++ raising e
                end
              else
                match __check_time_elapsed (utcnow step) with
                | inl e => raising e
                | inr time_passed =>
                    [still_not_available time_passed (S count);
                     Sleep st.TIME_BETWEEN_GET_REQUESTS_IN_SECONDS] +++
                    ReportChecker_poll sleep0 (S count) rest
                end
          end
      end
  end.

(** [ReportChecker._run(sleep)] inside [connect(sleep0)]. *)
Definition ReportChecker_run (sleep0 sleep : bool) (script : list poll_step)
  : trace * outcome :=
  sleep_before ReportChecker_cls sleep +++ ReportChecker_poll sleep0 0 script.

(** [ReportChecker(report_id, timestamp_created).connect(sleep)]. *)
Definition ReportChecker_connect (sleep : bool) (script : list poll_step)
  : trace * outcome :=
  ReportChecker_run sleep sleep script.

End Checker.

End Loops.

(** ** Reading a trace *)

Definition is_sleep (e : event) : bool :=
  match e with Sleep _ => true | _ => false end.

Definition is_post (e : event) : bool :=
  match e with Post _ _ => true | _ => false end.

Definition is_get (e : event) : bool :=
  match e with Get _ => true | _ => false end.

Definition is_gather (e : event) : bool :=
  match e with Gather _ _ _ => true | _ => false end.

(** The identifiers sent by the POST requests of a trace, in order. *)
Definition posted_ids (t : trace) : list string :=
  flat_map (fun e => match e with
                     | Post _ (JObject [(_, JString id)]) => [id]
                     | _ => []
                     end) t.

(** The lines appended to a file by a trace, in order. *)
Definition appended (t : trace) : list string :=
  flat_map (fun e => match e with Append _ line => [line] | _ => [] end) t.

Fixpoint count_char (c : ascii) (s : string) : nat :=
  match s with
  | "" => 0
  | String c' rest => (if Ascii.eqb c' c then 1 else 0) + count_char c rest
  end.

(** ** The paths of the two loops, as the specification names them *)

Definition replied_status (r : reply) : option Z :=
  match r with
  | Responded response => Some (status_code response)
  | TimedOut => None
  end.

(** A creation attempt answered with 409. *)
Definition is_conflict (a : attempt) : bool :=
  match replied_status (post_reply a) with
  | Some code => (code =? st.REPORT_ALREADY_EXISTS_STATUS_CODE)%Z
  | None => false
  end.

(** What the specification says the creation loop does with a conflict:
    the request, the fault, and the server's message with the notice of
    the retry. *)
Definition conflict_events (a : attempt) : trace :=
  match post_reply a with
  | Responded response =>
      [Post "reports" (post_data (uuid4 a));
       Log ERROR (LExn (HTTPStatusError response));
       Log WARNING (LStr (rstrip (text response) ++ st.TRYING_AGAIN_MESSAGE))]
  | TimedOut => []
  end.

(** A polling step answered with 202 before the deadline of the checker. *)
Definition is_pending (self : ReportChecker) (step : poll_step) : bool :=
  match replied_status (get_reply step) with
  | Some code =>
      (code =? st.REPORT_STILL_NOT_AVAILABLE_STATUS_CODE)%Z &&
      negb (time_is_up self (utcnow step))
  | None => false
  end.

(** The trace of the polling steps that find the report pending, from the
    value [count] of the counter on. *)
Fixpoint pending_events (rt : Runtime) (self : ReportChecker) (count : nat)
  (steps : list poll_step) : trace :=
  match steps with
  | [] => []
  | step :: rest =>
      [get_report self;
       still_not_available rt self
         (round1 rt (utcnow step - timestamp_created self)) (S count);
       Sleep st.TIME_BETWEEN_GET_REQUESTS_IN_SECONDS] ++
      pending_events rt self (S count) rest
  end%list.

(** The ways a polling step ends the run: what follows the GET in the
    trace, and how [connect] ends. *)
Inductive poll_end (rt : Runtime) (self : ReportChecker) (step : poll_step)
  : trace -> outcome -> Prop :=
| end_ready response value :
    get_reply step = Responded response ->
    status_code response = st.REPORT_RETRIEVED_STATUS_CODE ->
    json_value rt response = inr value ->
    poll_end rt self step
      [report_successfully_retrieved self;
       Append "results.csv" (csv_line rt self value)] Returned
| end_no_value response e :
    get_reply step = Responded response ->
    status_code response = st.REPORT_RETRIEVED_STATUS_CODE ->
    json_value rt response = inl e ->
    poll_end rt self step [report_successfully_retrieved self] (Raised e)
| end_expired response :
    get_reply step = Responded response ->
    status_code response = st.REPORT_STILL_NOT_AVAILABLE_STATUS_CODE ->
    time_is_up self (utcnow step) = true ->
    poll_end rt self step [expired_log self] Returned
| end_unexpected response :
    get_reply step = Responded response ->
    (status_code response < 400)%Z ->
    status_code response <> st.REPORT_RETRIEVED_STATUS_CODE ->
    status_code response <> st.REPORT_STILL_NOT_AVAILABLE_STATUS_CODE ->
    poll_end rt self step
      [Log ERROR (LExn (UnexpectedAPIStatusCode response))]
      (Raised (SystemExit None))
| end_error response :
    get_reply step = Responded response ->
    (400 <= status_code response)%Z ->
    poll_end rt self step
      [Log ERROR (LExn (HTTPStatusError response))] Returned.

(** ** More readings of a trace, and of a script *)

Definition is_append (e : event) : bool :=
  match e with Append _ _ => true | _ => false end.

Definition is_log (e : event) : bool :=
  match e with Log _ _ => true | _ => false end.

(** The checkers handed to [asyncio.gather] by a trace, in order. *)
Definition gathered (t : trace) : list ReportChecker :=
  flat_map (fun e => match e with Gather chk _ _ => [chk] | _ => [] end) t.

(** The sleep flags of the gathers of a trace. *)
Definition gather_flags (t : trace) : list (bool * bool) :=
  flat_map (fun e => match e with
                     | Gather _ s1 s2 => [(s1, s2)]
                     | _ => []
                     end) t.

(** The lengths of the sleeps of a trace, in order. *)
Definition sleeps (t : trace) : list Q :=
  flat_map (fun e => match e with Sleep q => [q] | _ => [] end) t.

(** The addresses of the GET requests of a trace, in order. *)
Definition got_urls (t : trace) : list string :=
  flat_map (fun e => match e with Get u => [u] | _ => [] end) t.

(** The checker [_send_request] builds for an attempt, if it gets there. *)
Definition created_checker (rt : Runtime) (a : attempt) : list ReportChecker :=
  match snd (ReportCreator_send_request rt a) with
  | inr report_checker => [report_checker]
  | inl _ => []
  end.

Definition is_timed_out (r : reply) : bool :=
  match r with TimedOut => true | Responded _ => false end.

(** What a poll run does with a connection that times out: the request,
    the warning of [connect], and the sleep of the new [_run]. *)
Definition timeout_events (self : ReportChecker) (sleep0 : bool) : trace :=
  ([get_report self; Log WARNING (LStr st.CONNECTION_FAILED_MESSAGE)] ++
   sleep_before ReportChecker_cls sleep0)%list.

(** What the events of a poll run can be: no POST and no gather, a GET
    for the report of the checker, a sleep of 30 or 0.8 seconds, an append
    to [results.csv], a log record. *)
Definition poll_event_ok (self : ReportChecker) (e : event) : Prop :=
  match e with
  | Post _ _ => False
  | Gather _ _ _ => False
  | Get u => u = "reports/" ++ report_id self
  | Sleep q => q = 30%Q \/ q = 0.8%Q
  | Append file _ => file = "results.csv"
  | Log _ _ => True
  end.

(** A run appends nothing, or ends with the append of a record. *)
Definition ends_with_record (rt : Runtime) (self : ReportChecker)
  (r : trace * outcome) : Prop :=
  appended (fst r) = [] \/
  exists t value,
    fst r = (t ++ [Append "results.csv" (csv_line rt self value)])%list /\
    appended t = [] /\ ~ In (expired_log self) t /\ snd r = Returned.

(** An attempt the creation loop makes again: one answered 409, or one
    whose connection times out. *)
Definition is_retried (a : attempt) : bool :=
  is_conflict a || is_timed_out (post_reply a).

(** A step after which the polling loop goes on: a pending answer, or a
    connection that times out. *)
Definition keeps_polling (self : ReportChecker) (step : poll_step) : bool :=
  is_pending self step || is_timed_out (get_reply step).

(** The exceptions that leave [connect] of the creation loop. *)
Definition creator_raises : list exn :=
  [SystemExit None; SystemExit (Some 0%Z); KeyError "date"; ValueError].


(** The exceptions some [except] clause of the program names. *)
Definition is_handled (e : exn) : bool :=
  match e with
  | HTTPStatusError _ | UnexpectedAPIStatusCode _ | ConnectTimeout => true
  | _ => false
  end.

(** ** Sample data *)

Definition DQ : string := String (ascii_of_nat 34) "".

Definition sample_date : string := "Sun, 19 Mar 2023 13:01:34 GMT".

Definition T0 : Q := 1679230894.

(** The body [{"value": "x"}]. *)
Definition body_x : string :=
  "{" ++ DQ ++ "value" ++ DQ ++ ": " ++ DQ ++ "x" ++ DQ ++ "}".

(** A runtime that knows one date, three JSON texts and whole numbers. *)
Definition sample_rt : Runtime := {|
  strptime_timestamp s := if String.eqb s sample_date then Some T0 else None;
  json_loads s :=
    if String.eqb s body_x then Some (JObject [("value", JString "x")])
    else if String.eqb s "{}" then Some (JObject [])
    else if String.eqb s "[]" then Some (JArray [])
    else None;
  format_float q := str_of_Z (Qnum q / Zpos (Qden q)) ++ ".0";
  format_json _ := "?";
  round1 q := q
|}.

Definition sample_response (code : Z) (h : list (string * string))
  (body : string) : Response :=
  {| status_code := code; reason_phrase := ""; url := "reports";
     headers := h; text := body |}.

Definition sample_attempt (id : string) (code : Z)
  (h : list (string * string)) (body : string) : attempt :=
  {| uuid4 := id; post_reply := Responded (sample_response code h body) |}.

Definition sample_step (code : Z) (body : string) (now : Q) : poll_step :=
  {| get_reply := Responded (sample_response code [] body); utcnow := now |}.

Definition sample_checker : ReportChecker :=
  {| report_id := "u3"; timestamp_created := T0 |}.

Definition pending_1 : poll_step := sample_step 202 "" (T0 + 31).
Definition pending_2 : poll_step := sample_step 202 "" (T0 + 32).
Definition late_3 : poll_step := sample_step 202 "" (T0 + 301).
Definition ready_3 : poll_step := sample_step 200 body_x (T0 + 33).

(** The body [{"value": "a\nb"}], whose value holds a line feed, and a
    runtime that knows it too. *)
Definition body_two_lines : string :=
  "{" ++ DQ ++ "value" ++ DQ ++ ": " ++ DQ ++ "a\nb" ++ DQ ++ "}".

Definition two_lines_rt : Runtime := {|
  strptime_timestamp := strptime_timestamp sample_rt;
  json_loads s :=
    if String.eqb s body_two_lines
    then Some (JObject [("value", JString ("a" ++ LF ++ "b"))])
    else json_loads sample_rt s;
  format_float := format_float sample_rt;
  format_json := format_json sample_rt;
  round1 := round1 sample_rt
|}.

Definition timed_out_step : poll_step := {| get_reply := TimedOut; utcnow := T0 |}.
Definition timed_out_attempt : attempt :=
  {| uuid4 := "u0"; post_reply := TimedOut |}.

Definition conflict_1 : attempt := sample_attempt "u1" 409 [] ("exists" ++ LF).
Definition conflict_2 : attempt := sample_attempt "u2" 409 [] "exists".
Definition created_3 : attempt :=
  sample_attempt "u3" 201 [("Date", sample_date)] "".

(** ** Basic facts *)

Local Open Scope list_scope.

Lemma fst_prepend (t : trace) (r : trace * outcome) :
  fst (t +++ r) = (t ++ fst r)%list.
Proof. reflexivity. Qed.

Lemma snd_prepend (t : trace) (r : trace * outcome) : snd (t +++ r) = snd r.
Proof. reflexivity. Qed.

Lemma prepend_nil (r : trace * outcome) : [] +++ r = r.
Proof. destruct r; reflexivity. Qed.

Lemma prepend_app (t u : trace) (r : trace * outcome) :
  t +++ (u +++ r) = (t ++ u)%list +++ r.
Proof. unfold prepend; cbn [fst snd]; now rewrite app_assoc. Qed.

Lemma posted_ids_app (t u : trace) :
  posted_ids (t ++ u) = (posted_ids t ++ posted_ids u)%list.
Proof. apply flat_map_app. Qed.

Lemma appended_app (t u : trace) :
  appended (t ++ u) = (appended t ++ appended u)%list.
Proof. apply flat_map_app. Qed.

(** The messages of [settings.py] and [exceptions.py], once formatted. *)
Lemma TooMuchTimePassed_message_text (id : string) :
  TooMuchTimePassed_message id =
  ("Time to create report with id =" ++ id ++ " has expired!")%string.
Proof. reflexivity. Qed.

Lemma UnexpectedAPIStatusCode_message_text (response : Response) :
  UnexpectedAPIStatusCode_message response =
  ("Unexpected status code from API '" ++
   str_of_Z (status_code response) ++ " " ++ reason_phrase response ++
   "' for url '" ++ url response ++ "'")%string.
Proof. reflexivity. Qed.

Lemma post_request_was_sent_text (id : string) :
  post_request_was_sent id =
  Log INFO (LStr ("Request to create report with id=" ++ id ++
                  " sent successfully" ++ LF ++
                  "Waiting for 30 sec before starting to check if the " ++
                  "report is ready...")%string).
Proof. reflexivity. Qed.

Lemma rstrip_examples :
  rstrip ("exists" ++ LF)%string = "exists"%string /\
  rstrip "a b  "%string = "a b"%string /\
  rstrip "  "%string = ""%string.
Proof. repeat split. Qed.

(** Both sides are traces put together with [+++] and [++]. *)
Ltac trace_eq :=
  unfold prepend; cbn [fst snd]; rewrite <- ?app_assoc; cbn [app];
  reflexivity.

(** A status from 200 to 299 never raises in [raise_for_status], a status
    of 400 or more always does. *)
Lemma check_response_error (c : cls) (response : Response) :
  (400 <= status_code response)%Z ->
  _check_response c response = Some (HTTPStatusError response).
Proof.
  intros H. unfold _check_response, raise_for_status.
  destruct (Z.leb_spec 400 (status_code response)); [reflexivity | lia].
Qed.

Lemma check_response_below_400 (c : cls) (response : Response) :
  (status_code response < 400)%Z ->
  _check_response c response =
    if existsb (Z.eqb (status_code response)) (_expected_2xx_status_codes c)
    then None else Some (UnexpectedAPIStatusCode response).
Proof.
  intros H. unfold _check_response, raise_for_status.
  destruct (Z.leb_spec 400 (status_code response)); [lia |].
  destruct (existsb _ _); reflexivity.
Qed.

(** One turn of the creation loop on a conflict. *)
Lemma ReportCreator_run_conflict (rt : Runtime) (sleep0 sleep : bool)
  (a : attempt) (rest : list attempt) :
  is_conflict a = true ->
  ReportCreator_run rt sleep0 sleep (a :: rest) =
    (sleep_before ReportCreator_cls sleep ++ conflict_events a)%list +++
    ReportCreator_run rt sleep0 false rest.
Proof.
  unfold is_conflict, conflict_events, replied_status.
  destruct a as [id [response|]]; cbn [post_reply uuid4]; [|discriminate].
  intros H%Z.eqb_eq.
  cbn [ReportCreator_run]. unfold ReportCreator_send_request.
  cbn [post_reply uuid4].
  rewrite check_response_error
    by (rewrite H; unfold st.REPORT_ALREADY_EXISTS_STATUS_CODE; lia).
  unfold unwind. cbn [catch _run_except _check_exception].
  rewrite H, Z.eqb_refl. cbn [connect_except]. trace_eq.
Qed.

(** One turn of the creation loop on a 201 with a readable date. *)
Lemma ReportCreator_run_created (rt : Runtime) (sleep0 sleep : bool)
  (a : attempt) (response : Response) (ts : Q) (rest : list attempt) :
  post_reply a = Responded response ->
  status_code response =
    st.REQUESTS_FOR_CREATING_REPORT_SUCCESSFULLY_SENT_STATUS_CODE ->
  __get_timestamp_from_response rt response = inr ts ->
  ReportCreator_run rt sleep0 sleep (a :: rest) =
    (sleep_before ReportCreator_cls sleep ++
     [Post "reports" (post_data (uuid4 a));
      post_request_was_sent (uuid4 a);
      Gather {| report_id := uuid4 a; timestamp_created := ts |} true true])%list
    +++ ReportCreator_run rt sleep0 true rest.
Proof.
  intros Hr Hs Ht.
  cbn [ReportCreator_run]. unfold ReportCreator_send_request.
  rewrite Hr, check_response_below_400
    by (rewrite Hs; unfold st.REQUESTS_FOR_CREATING_REPORT_SUCCESSFULLY_SENT_STATUS_CODE; lia).
  rewrite Hs, Ht. cbn [existsb _expected_2xx_status_codes].
  rewrite Z.eqb_refl. cbn [orb]. trace_eq.
Qed.

Lemma conflict_events_posted (conflicts : list attempt) :
  forallb is_conflict conflicts = true ->
  posted_ids (flat_map conflict_events conflicts) = map uuid4 conflicts.
Proof.
  induction conflicts as [|a l IH]; cbn [forallb flat_map map]; [reflexivity|].
  intros [Ha Hl]%andb_prop. rewrite posted_ids_app, (IH Hl).
  unfold is_conflict, conflict_events, replied_status in *.
  destruct (post_reply a); [reflexivity | discriminate].
Qed.

Lemma conflict_events_filter (p : event -> bool) (conflicts : list attempt) :
  (forall u d, p (Post u d) = false) ->
  (forall l m, p (Log l m) = false) ->
  filter p (flat_map conflict_events conflicts) = [].
Proof.
  intros Hp Hl. induction conflicts as [|a l IH]; [reflexivity|].
  cbn [flat_map]. rewrite filter_app, IH, app_nil_r.
  unfold conflict_events. destruct (post_reply a); [|reflexivity].
  cbn [filter]. now rewrite Hp, !Hl.
Qed.

Lemma conflict_events_posts (conflicts : list attempt) :
  forallb is_conflict conflicts = true ->
  List.length (filter is_post (flat_map conflict_events conflicts)) =
  List.length conflicts.
Proof.
  induction conflicts as [|a l IH]; cbn [forallb flat_map]; [reflexivity|].
  intros [Ha Hl]%andb_prop. rewrite filter_app, length_app, (IH Hl).
  unfold is_conflict, conflict_events, replied_status in *.
  destruct (post_reply a); [reflexivity | discriminate].
Qed.

(** Any number of conflicts and then a 201: every conflict is retried at
    once, and the loop goes on after the 201. *)
Lemma ReportCreator_run_conflicts_created (rt : Runtime) (sleep0 : bool)
  (conflicts : list attempt) (a : attempt) (response : Response) (ts : Q)
  (rest : list attempt) :
  forallb is_conflict conflicts = true ->
  post_reply a = Responded response ->
  status_code response =
    st.REQUESTS_FOR_CREATING_REPORT_SUCCESSFULLY_SENT_STATUS_CODE ->
  __get_timestamp_from_response rt response = inr ts ->
  forall sleep,
  ReportCreator_run rt sleep0 sleep (conflicts ++ a :: rest) =
    (sleep_before ReportCreator_cls sleep ++
     flat_map conflict_events conflicts ++
     [Post "reports" (post_data (uuid4 a));
      post_request_was_sent (uuid4 a);
      Gather {| report_id := uuid4 a; timestamp_created := ts |} true true])
    +++ ReportCreator_run rt sleep0 true rest.
Proof.
  intros Hc Hr Hs Ht.
  induction conflicts as [|c l IH]; intros sleep.
  - cbn [app flat_map]. now apply ReportCreator_run_created with response.
  - cbn [forallb] in Hc. apply andb_prop in Hc as [Hc Hl].
    cbn [app flat_map].
    rewrite (ReportCreator_run_conflict _ _ _ _ _ Hc).
    rewrite (IH Hl false). cbn [sleep_before]. trace_eq.
Qed.

(** C1. For every creation attempt answered with 409 the creation loop
    logs the server's message (followed by the notice of the retry) and
    runs again at once with [sleep=False]: whatever the number of
    conflicts, the trace up to the 201 holds no sleep, one POST per
    attempt carrying the identifier drawn for that attempt, and the checker
    is handed to [asyncio.gather] only after the POST answered 201.  When
    the identifiers drawn are pairwise distinct, so are those posted. *)
Theorem C1_conflict_retry (rt : Runtime) (sleep0 : bool)
  (conflicts : list attempt) (a : attempt) (response : Response) (ts : Q)
  (rest : list attempt) :
  forallb is_conflict conflicts = true ->
  post_reply a = Responded response ->
  status_code response = 201%Z ->
  __get_timestamp_from_response rt response = inr ts ->
  let run := ReportCreator_run rt sleep0 false (conflicts ++ a :: rest) in
  let retries := flat_map conflict_events conflicts in
  let created := [Post "reports" (post_data (uuid4 a));
                  post_request_was_sent (uuid4 a)] in
  let checker := {| report_id := uuid4 a; timestamp_created := ts |} in
  let next_cycle := ReportCreator_run rt sleep0 true rest in
  fst run = retries ++ created ++ Gather checker true true :: fst next_cycle
  /\ snd run = snd next_cycle
  /\ posted_ids (retries ++ created) = map uuid4 (conflicts ++ [a])
  /\ List.length (filter is_post (retries ++ created)) =
     S (List.length conflicts)
  /\ filter is_sleep (retries ++ created) = []
  /\ filter is_gather (retries ++ created) = []
  /\ (forall c rc, In c conflicts -> post_reply c = Responded rc ->
        In (Log WARNING
              (LStr (rstrip (text rc) ++ st.TRYING_AGAIN_MESSAGE)%string))
           retries)
  /\ (NoDup (map uuid4 (conflicts ++ [a])) ->
      NoDup (posted_ids (retries ++ created))).
Proof.
  intros Hc Hr Hs Ht run retries created checker next_cycle.
  assert (Hids : posted_ids (retries ++ created) = map uuid4 (conflicts ++ [a])).
  { subst retries created. rewrite posted_ids_app, map_app.
    now rewrite (conflict_events_posted _ Hc). }
  repeat split.
  - subst run. rewrite (ReportCreator_run_conflicts_created
                          rt sleep0 conflicts a response ts rest Hc Hr Hs Ht).
    cbn [sleep_before]. subst retries created. trace_eq.
  - subst run. now rewrite (ReportCreator_run_conflicts_created
                          rt sleep0 conflicts a response ts rest Hc Hr Hs Ht).
  - exact Hids.
  - subst retries created. rewrite filter_app, length_app.
    rewrite (conflict_events_posts _ Hc). cbn. lia.
  - subst retries created. rewrite filter_app.
    now rewrite conflict_events_filter.
  - subst retries created. rewrite filter_app.
    now rewrite conflict_events_filter.
  - intros c rc Hin Hrc. subst retries. apply in_flat_map.
    exists c. split; [exact Hin|]. unfold conflict_events. rewrite Hrc.
    right; right; left; reflexivity.
  - intros Hnd. now rewrite Hids.
Qed.

(** The sequence [409, 409, 201] of the specification: three requests
    with the three identifiers drawn, the gather after the third. *)
Lemma C1_conflict_retry_witness :
  forallb is_conflict [conflict_1; conflict_2] = true /\
  fst (ReportCreator_connect sample_rt false
         [conflict_1; conflict_2; created_3]) =
    flat_map conflict_events [conflict_1; conflict_2] ++
    [Post "reports" (post_data "u3"); post_request_was_sent "u3"] ++
    Gather sample_checker true true ::
    fst (ReportCreator_run sample_rt false true []) /\
  posted_ids
    (flat_map conflict_events [conflict_1; conflict_2] ++
     [Post "reports" (post_data "u3"); post_request_was_sent "u3"]) =
    ["u1"; "u2"; "u3"]%string.
Proof.
  pose proof (C1_conflict_retry sample_rt false [conflict_1; conflict_2]
                created_3 _ T0 [] eq_refl eq_refl eq_refl eq_refl) as H.
  cbv zeta in H. destruct H as (Htrace & _ & Hids & _).
  split; [reflexivity|]. split; [exact Htrace | exact Hids].
Defined.

(** ** The polling loop, step by step *)

Section CheckerFacts.

Context (rt : Runtime) (self : ReportChecker).

Lemma time_is_up_true (now : Q) :
  (300 < now - timestamp_created self)%Q -> time_is_up self now = true.
Proof.
  intros H. unfold time_is_up.
  destruct (Qle_bool _ _) eqn:E; [|reflexivity].
  apply Qle_bool_iff in E. exfalso. revert E. apply Qlt_not_le. exact H.
Qed.

Lemma time_is_up_false (now : Q) :
  (now - timestamp_created self <= 300)%Q -> time_is_up self now = false.
Proof.
  intros H. unfold time_is_up.
  apply Qle_bool_iff in H.
  unfold st.MAX_TIME_FOR_RETRIEVING_REPORT_IN_SECONDS.
  change (inject_Z 300) with 300%Q. now rewrite H.
Qed.

(** The exceptions of a body without a value. *)
Lemma json_value_exn (response : Response) (e : exn) :
  json_value rt response = inl e ->
  e = JSONDecodeError \/ e = KeyError "value" \/ e = TypeError.
Proof.
  unfold json_value.
  destruct (json_loads rt (text response)) as [[| | | | | |members]|];
    try (intros [= <-]; auto).
  destruct (find _ members); [discriminate | intros [= <-]; auto].
Qed.

(** No [except] clause of either class matches them. *)
Lemma catch_json_value_exn (c : cls) (sleep : bool) (response : Response)
  (e : exn) :
  json_value rt response = inl e -> catch c sleep e = ([], Raise e).
Proof.
  intros [-> | [-> | ->]]%json_value_exn; destruct c; reflexivity.
Qed.

Lemma ReportChecker_poll_pending (sleep0 : bool) (count : nat)
  (step : poll_step) (rest : list poll_step) :
  is_pending self step = true ->
  ReportChecker_poll rt self sleep0 count (step :: rest) =
    [get_report self;
     still_not_available rt self
       (round1 rt (utcnow step - timestamp_created self)) (S count);
     Sleep st.TIME_BETWEEN_GET_REQUESTS_IN_SECONDS] +++
    ReportChecker_poll rt self sleep0 (S count) rest.
Proof.
  unfold is_pending, replied_status.
  destruct step as [[response|] now]; cbn [get_reply utcnow]; [|discriminate].
  intros [Hs%Z.eqb_eq Ht%negb_true_iff]%andb_prop.
  cbn [ReportChecker_poll get_reply utcnow].
  rewrite check_response_below_400
    by (rewrite Hs; unfold st.REPORT_STILL_NOT_AVAILABLE_STATUS_CODE; lia).
  rewrite Hs. cbn [existsb _expected_2xx_status_codes].
  unfold __check_time_elapsed. rewrite Ht.
  unfold st.REPORT_STILL_NOT_AVAILABLE_STATUS_CODE,
    st.REPORT_RETRIEVED_STATUS_CODE. cbn [Z.eqb Pos.eqb orb].
  trace_eq.
Qed.

Lemma ReportChecker_poll_timed_out (sleep0 : bool) (count : nat)
  (step : poll_step) (rest : list poll_step) :
  get_reply step = TimedOut ->
  ReportChecker_poll rt self sleep0 count (step :: rest) =
    ([get_report self; Log WARNING (LStr st.CONNECTION_FAILED_MESSAGE)] ++
     sleep_before ReportChecker_cls sleep0) +++
    ReportChecker_poll rt self sleep0 0 rest.
Proof.
  intros H. cbn [ReportChecker_poll]. rewrite H.
  unfold unwind. cbn [catch _run_except ReportChecker_run_except
                        connect_except].
  trace_eq.
Qed.

Lemma ReportChecker_poll_end (sleep0 : bool) (count : nat)
  (step : poll_step) (rest : list poll_step) (t : trace) (o : outcome) :
  poll_end rt self step t o ->
  ReportChecker_poll rt self sleep0 count (step :: rest) = (get_report self :: t, o).
Proof.
  intros H. cbn [ReportChecker_poll].
  destruct H as [response value Hr Hs Hv | response e Hr Hs Hv
                | response Hr Hs Ht | response Hr Hlt H200 H202
                | response Hr Hge]; rewrite Hr.
  - rewrite check_response_below_400
      by (rewrite Hs; unfold st.REPORT_RETRIEVED_STATUS_CODE; lia).
    rewrite Hs. cbn [existsb _expected_2xx_status_codes].
    rewrite Z.eqb_refl. cbn [orb]. unfold __report_retrieved. rewrite Hv.
    reflexivity.
  - rewrite check_response_below_400
      by (rewrite Hs; unfold st.REPORT_RETRIEVED_STATUS_CODE; lia).
    rewrite Hs. cbn [existsb _expected_2xx_status_codes].
    rewrite Z.eqb_refl. cbn [orb]. unfold __report_retrieved. rewrite Hv.
    unfold unwind. rewrite (catch_json_value_exn _ _ _ _ Hv). reflexivity.
  - rewrite check_response_below_400
      by (rewrite Hs; unfold st.REPORT_STILL_NOT_AVAILABLE_STATUS_CODE; lia).
    rewrite Hs. cbn [existsb _expected_2xx_status_codes].
    unfold __check_time_elapsed. rewrite Ht.
    unfold st.REPORT_STILL_NOT_AVAILABLE_STATUS_CODE,
      st.REPORT_RETRIEVED_STATUS_CODE. cbn [Z.eqb Pos.eqb orb].
    reflexivity.
  - rewrite check_response_below_400 by exact Hlt.
    cbn [existsb _expected_2xx_status_codes].
    apply Z.eqb_neq in H200, H202. rewrite H200, H202. reflexivity.
  - rewrite check_response_error by exact Hge. reflexivity.
Qed.

(** Every polling step is of one of the three kinds. *)
Lemma ReportChecker_poll_cases (sleep0 : bool) (count : nat)
  (step : poll_step) (rest : list poll_step) :
  (is_pending self step = true /\
   ReportChecker_poll rt self sleep0 count (step :: rest) =
     [get_report self;
      still_not_available rt self
        (round1 rt (utcnow step - timestamp_created self)) (S count);
      Sleep st.TIME_BETWEEN_GET_REQUESTS_IN_SECONDS] +++
     ReportChecker_poll rt self sleep0 (S count) rest)
  \/ (get_reply step = TimedOut /\
      ReportChecker_poll rt self sleep0 count (step :: rest) =
        ([get_report self; Log WARNING (LStr st.CONNECTION_FAILED_MESSAGE)] ++
         sleep_before ReportChecker_cls sleep0) +++
        ReportChecker_poll rt self sleep0 0 rest)
  \/ (exists t o, poll_end rt self step t o /\
      ReportChecker_poll rt self sleep0 count (step :: rest) = (get_report self :: t, o)).
Proof.
  assert (Hend : forall t o, poll_end rt self step t o ->
            exists t o, poll_end rt self step t o /\
              ReportChecker_poll rt self sleep0 count (step :: rest) =
              (get_report self :: t, o)).
  { intros t o E. exists t, o. split; [exact E|].
    now apply ReportChecker_poll_end. }
  destruct (get_reply step) as [response|] eqn:Hr.
  2:{ right; left. split; [reflexivity|].
      now apply ReportChecker_poll_timed_out. }
  destruct (Z_lt_le_dec (status_code response) 400) as [Hlt|Hge].
  2:{ right; right. exact (Hend _ _ (end_error rt self step response Hr Hge)). }
  destruct (Z.eq_dec (status_code response) st.REPORT_RETRIEVED_STATUS_CODE)
    as [H200|H200].
  { right; right. destruct (json_value rt response) as [e|value] eqn:Hv.
    - exact (Hend _ _ (end_no_value rt self step response e Hr H200 Hv)).
    - exact (Hend _ _ (end_ready rt self step response value Hr H200 Hv)). }
  destruct (Z.eq_dec (status_code response)
              st.REPORT_STILL_NOT_AVAILABLE_STATUS_CODE) as [H202|H202].
  2:{ right; right.
      exact (Hend _ _ (end_unexpected rt self step response Hr Hlt H200 H202)). }
  destruct (time_is_up self (utcnow step)) eqn:Ht.
  - right; right.
    exact (Hend _ _ (end_expired rt self step response Hr H202 Ht)).
  - left. assert (Hp : is_pending self step = true).
    { unfold is_pending, replied_status. rewrite Hr, H202, Ht.
      now rewrite Z.eqb_refl. }
    split; [exact Hp|]. now apply ReportChecker_poll_pending.
Qed.

End CheckerFacts.

(** ** Whole runs of the polling loop *)

Section CheckerRuns.

Context (rt : Runtime) (self : ReportChecker).

Lemma appended_pending_events (count : nat) (steps : list poll_step) :
  appended (pending_events rt self count steps) = [].
Proof.
  revert count. induction steps as [|step l IH]; intros count;
    [reflexivity|].
  cbn [pending_events]. rewrite appended_app. now rewrite IH.
Qed.

Lemma gets_pending_events (count : nat) (steps : list poll_step) :
  List.length (filter is_get (pending_events rt self count steps)) =
  List.length steps.
Proof.
  revert count. induction steps as [|step l IH]; intros count;
    [reflexivity|].
  cbn [pending_events]. rewrite filter_app, length_app, IH. reflexivity.
Qed.

Lemma appended_sleep_before (c : cls) (sleep : bool) :
  appended (sleep_before c sleep) = [].
Proof. now destruct sleep. Qed.

Lemma gets_sleep_before (c : cls) (sleep : bool) :
  filter is_get (sleep_before c sleep) = [].
Proof. now destruct sleep. Qed.

(** Pending steps and then a step that ends the run. *)
Lemma ReportChecker_poll_pendings_end (sleep0 : bool)
  (pendings : list poll_step) (step : poll_step) (rest : list poll_step)
  (t : trace) (o : outcome) :
  forallb (is_pending self) pendings = true ->
  poll_end rt self step t o ->
  forall count,
  ReportChecker_poll rt self sleep0 count (pendings ++ step :: rest) =
    (pending_events rt self count pendings ++ get_report self :: t, o).
Proof.
  intros Hp Hend. induction pendings as [|p l IH]; intros count.
  - now apply ReportChecker_poll_end.
  - cbn [forallb] in Hp. apply andb_prop in Hp as [Hp Hl].
    cbn [app]. rewrite (ReportChecker_poll_pending _ _ _ _ _ _ Hp).
    rewrite (IH Hl). cbn [pending_events]. trace_eq.
Qed.

(** Whatever the script, at most one line is appended, and it is the line
    of [__add_new_line_to_csv] for some value. *)
Lemma appended_ReportChecker_poll (sleep0 : bool) (script : list poll_step) :
  forall count,
  appended (fst (ReportChecker_poll rt self sleep0 count script)) = [] \/
  exists value,
    appended (fst (ReportChecker_poll rt self sleep0 count script)) =
    [csv_line rt self value].
Proof.
  induction script as [|step rest IH]; intros count; [left; reflexivity|].
  destruct (ReportChecker_poll_cases rt self sleep0 count step rest)
    as [[_ ->] | [[_ ->] | (t & o & Hend & ->)]].
  - rewrite fst_prepend, appended_app. exact (IH (S count)).
  - rewrite fst_prepend, !appended_app, appended_sleep_before.
    exact (IH 0%nat).
  - cbn [fst]. destruct Hend; [right; eexists; reflexivity | left ..];
      reflexivity.
Qed.

(** The deadline is only looked at after a 202: a run that logs the
    expiry has met a step answered 202 past the deadline. *)
Lemma expired_ReportChecker_poll (sleep0 : bool) (script : list poll_step) :
  forall count,
  In (expired_log self) (fst (ReportChecker_poll rt self sleep0 count script)) ->
  exists step response,
    In step script /\ get_reply step = Responded response /\
    status_code response = st.REPORT_STILL_NOT_AVAILABLE_STATUS_CODE /\
    time_is_up self (utcnow step) = true.
Proof.
  assert (Hrest : forall step rest,
            (exists s r, In s rest /\ get_reply s = Responded r /\
               status_code r = st.REPORT_STILL_NOT_AVAILABLE_STATUS_CODE /\
               time_is_up self (utcnow s) = true) ->
            exists s r, In s (step :: rest) /\ get_reply s = Responded r /\
               status_code r = st.REPORT_STILL_NOT_AVAILABLE_STATUS_CODE /\
               time_is_up self (utcnow s) = true).
  { intros step rest (s & r & Hin & H). exists s, r.
    split; [now right | exact H]. }
  induction script as [|step rest IH]; intros count; [intros []|].
  destruct (ReportChecker_poll_cases rt self sleep0 count step rest)
    as [[_ ->] | [[_ ->] | (t & o & Hend & ->)]].
  - rewrite fst_prepend. intros [H|H]%in_app_or.
    + repeat destruct H as [H|H]; try discriminate H. destruct H.
    + apply Hrest. exact (IH _ H).
  - rewrite fst_prepend. intros [H|H]%in_app_or.
    + apply in_app_or in H as [H|H].
      * repeat destruct H as [H|H]; try discriminate H. destruct H.
      * destruct sleep0; [|destruct H].
        repeat destruct H as [H|H]; try discriminate H. destruct H.
    + apply Hrest. exact (IH _ H).
  - cbn [fst]. intros H.
    destruct Hend as [response value Hr Hs Hv | response e Hr Hs Hv
                     | response Hr Hs Ht | response Hr Hlt H200 H202
                     | response Hr Hge];
      try (repeat destruct H as [H|H]; try discriminate H; now destruct H).
    exists step, response. split; [now left | auto].
Qed.

End CheckerRuns.

Lemma time_is_up_late (self : ReportChecker) (now : Q) :
  time_is_up self now = true -> (300 < now - timestamp_created self)%Q.
Proof.
  unfold time_is_up. intros H%negb_true_iff.
  apply Qnot_le_lt. intros Hle%Qle_bool_iff. revert Hle.
  unfold st.MAX_TIME_FOR_RETRIEVING_REPORT_IN_SECONDS in H.
  change (inject_Z 300) with 300%Q in H. now rewrite H.
Qed.

Lemma count_char_app (c : ascii) (s1 s2 : string) :
  count_char c (s1 ++ s2)%string = (count_char c s1 + count_char c s2)%nat.
Proof.
  induction s1 as [|c' s1 IH]; [reflexivity|].
  cbn [append count_char]. rewrite IH. lia.
Qed.

(** The line of a record, field by field. *)
Lemma csv_line_fields (rt : Runtime) (self : ReportChecker) (value : json) :
  csv_line rt self value =
    (format_float rt (timestamp_created self) ++ ";" ++
     format_value rt value ++ String "\" (String "n" LF))%string.
Proof. reflexivity. Qed.

(** C2. With creation time [T0], as long as the GET is answered 202 the
    elapsed time is the reading of the clock minus [T0]; at the first 202
    read more than 300 seconds after [T0] the run logs the expiry as an
    error and returns: nothing is appended, and no GET follows, whatever
    the server would have answered next. *)
Theorem C2_deadline_expired (rt : Runtime) (self : ReportChecker)
  (sleep : bool) (pendings : list poll_step) (late : poll_step)
  (response : Response) (rest : list poll_step) :
  forallb (is_pending self) pendings = true ->
  get_reply late = Responded response ->
  status_code response = 202%Z ->
  (300 < utcnow late - timestamp_created self)%Q ->
  let run := ReportChecker_connect rt self sleep (pendings ++ late :: rest) in
  fst run = sleep_before ReportChecker_cls sleep ++
            pending_events rt self 0 pendings ++
            [get_report self; expired_log self]
  /\ expired_log self =
       Log ERROR (LExn (TooMuchTimePassed (report_id self)))
  /\ snd run = Returned
  /\ appended (fst run) = []
  /\ List.length (filter is_get (fst run)) = S (List.length pendings).
Proof.
  intros Hp Hr Hs Ht run.
  assert (Hend : poll_end rt self late [expired_log self] Returned).
  { apply end_expired with response; auto using time_is_up_true. }
  assert (Hrun : run = (sleep_before ReportChecker_cls sleep ++
                        pending_events rt self 0 pendings ++
                        [get_report self; expired_log self], Returned)).
  { subst run. unfold ReportChecker_connect, ReportChecker_run.
    rewrite (ReportChecker_poll_pendings_end rt self sleep pendings late rest
               _ _ Hp Hend).
    reflexivity. }
  rewrite Hrun. cbn [fst snd]. repeat split.
  - now rewrite !appended_app, appended_sleep_before, appended_pending_events.
  - rewrite !filter_app, !length_app, gets_sleep_before, gets_pending_events.
    cbn. lia.
Qed.

(** The case of the specification: creation at [T0], a 202 read at
    [T0 + 301], and a 200 that is never asked for. *)
Lemma C2_deadline_expired_witness :
  (300 < utcnow late_3 - timestamp_created sample_checker)%Q /\
  snd (ReportChecker_connect sample_rt sample_checker true
         ([pending_1; pending_2] ++ late_3 :: [ready_3])) = Returned /\
  appended (fst (ReportChecker_connect sample_rt sample_checker true
                   ([pending_1; pending_2] ++ late_3 :: [ready_3]))) = [] /\
  List.length
    (filter is_get
       (fst (ReportChecker_connect sample_rt sample_checker true
               ([pending_1; pending_2] ++ late_3 :: [ready_3])))) = 3%nat.
Proof.
  assert (Hlate : (300 < utcnow late_3 - timestamp_created sample_checker)%Q)
    by reflexivity.
  pose proof (C2_deadline_expired sample_rt sample_checker true
                [pending_1; pending_2] late_3 _ [ready_3]
                eq_refl eq_refl eq_refl Hlate) as H.
  cbv zeta in H. destruct H as (_ & _ & Hout & Happ & Hgets).
  split; [exact Hlate|]. split; [exact Hout|]. split; [exact Happ|].
  exact Hgets.
Defined.






(** The claim C6 as the specification states it fails: a value that holds
    a line feed is written as it is, and the record spans two lines. *)
Lemma C6_csv_line_format_counterexample :
  ~ (forall (rt : Runtime) (self : ReportChecker) (sleep : bool)
       (script : list poll_step) (line : string),
        In line (appended (fst (ReportChecker_connect rt self sleep script))) ->
        count_char (ascii_of_nat 10) line = 1%nat).
Proof.
  intros H.
  specialize (H two_lines_rt sample_checker true
                [sample_step 200 body_two_lines (T0 + 33)] _
                (or_introl eq_refl)).
  vm_compute in H. discriminate H.
Qed.

(** C6, amended.  Every line a poll run appends goes to [results.csv]
    through [LINE_FOR_CSV]: the printed creation time, a semicolon, the
    printed value, a backslash, the letter n and a line feed.  When the
    two printed fields hold no line feed, the record is one line. *)
Theorem C6_csv_line_format (rt : Runtime) (self : ReportChecker)
  (sleep : bool) (script : list poll_step) (line : string) :
  In line (appended (fst (ReportChecker_connect rt self sleep script))) ->
  exists value,
    line = format st.LINE_FOR_CSV
             [("timestamp"%string, format_float rt (timestamp_created self));
              ("value"%string, format_value rt value)]
    /\ line = (format_float rt (timestamp_created self) ++ ";" ++
               format_value rt value ++
               String "\" (String "n" (String (ascii_of_nat 10) "")))%string
    /\ (count_char (ascii_of_nat 10)
          (format_float rt (timestamp_created self)) = 0%nat ->
        count_char (ascii_of_nat 10) (format_value rt value) = 0%nat ->
        count_char (ascii_of_nat 10) line = 1%nat).
Proof.
  unfold ReportChecker_connect, ReportChecker_run.
  rewrite fst_prepend, appended_app, appended_sleep_before. cbn [app].
  destruct (appended_ReportChecker_poll rt self sleep script 0)
    as [-> | [value ->]]; [intros [] | intros [<- | []]].
  exists value. split; [reflexivity|]. split; [apply csv_line_fields|].
  intros Hts Hv. rewrite csv_line_fields, !count_char_app, Hts, Hv.
  reflexivity.
Qed.

Lemma C6_csv_line_format_witness :
  In ("1679230894.0;x" ++ String "\" (String "n" LF))%string
    (appended (fst (ReportChecker_connect sample_rt sample_checker true
                      [pending_1; ready_3]))) /\
  exists value,
    ("1679230894.0;x" ++ String "\" (String "n" LF))%string =
    (format_float sample_rt (timestamp_created sample_checker) ++ ";" ++
     format_value sample_rt value ++
     String "\" (String "n" (String (ascii_of_nat 10) "")))%string.
Proof.
  assert (Hin : In ("1679230894.0;x" ++ String "\" (String "n" LF))%string
                  (appended (fst (ReportChecker_connect sample_rt
                                    sample_checker true
                                    [pending_1; ready_3]))))
    by (left; reflexivity).
  split; [exact Hin|].
  destruct (C6_csv_line_format sample_rt sample_checker true
              [pending_1; ready_3] _ Hin) as (value & _ & Hline & _).
  exists value. exact Hline.
Defined.

(** C9. In every poll run a GET is sent before the clock is looked at:
    the first event after the optional sleep is the GET; the expiry is
    logged only in a run that has received a 202 read more than 300
    seconds after the creation time; and a 200 on the first GET yields the
    record whatever the clock reads, also past the deadline. *)
Theorem C9_deadline_checked_after_get (rt : Runtime) (self : ReportChecker)
  (sleep : bool) :
  (forall step rest, exists t,
      fst (ReportChecker_connect rt self sleep (step :: rest)) =
      sleep_before ReportChecker_cls sleep ++ get_report self :: t)
  /\ (forall script,
        In (expired_log self)
          (fst (ReportChecker_connect rt self sleep script)) ->
        exists step response,
          In step script /\ get_reply step = Responded response /\
          status_code response = 202%Z /\
          (300 < utcnow step - timestamp_created self)%Q)
  /\ (forall response value now rest,
        status_code response = 200%Z ->
        json_value rt response = inr value ->
        ReportChecker_connect rt self sleep
          ({| get_reply := Responded response; utcnow := now |} :: rest) =
        (sleep_before ReportChecker_cls sleep ++
         [get_report self; report_successfully_retrieved self;
          Append "results.csv" (csv_line rt self value)], Returned)).
Proof.
  unfold ReportChecker_connect, ReportChecker_run. repeat split.
  - intros step rest. rewrite fst_prepend.
    destruct (ReportChecker_poll_cases rt self sleep 0 step rest)
      as [[_ ->] | [[_ ->] | (t & o & _ & ->)]];
      eexists; try rewrite fst_prepend; cbn [fst app]; reflexivity.
  - intros script. rewrite fst_prepend. intros [H|H]%in_app_or.
    + destruct sleep; [|destruct H].
      destruct H as [H|[]]. discriminate H.
    + destruct (expired_ReportChecker_poll rt self sleep script 0 H)
        as (step & response & Hin & Hr & Hs & Ht).
      exists step, response. auto using time_is_up_late.
  - intros response value now rest Hs Hv.
    rewrite (ReportChecker_poll_end rt self sleep 0 _ rest
               [report_successfully_retrieved self;
                Append "results.csv" (csv_line rt self value)] Returned).
    + reflexivity.
    + now apply end_ready with response.
Qed.

(** A 200 on the first GET, read a thousand seconds after the creation. *)
Lemma C9_deadline_checked_after_get_witness :
  (300 < (T0 + 1000) - timestamp_created sample_checker)%Q /\
  ReportChecker_connect sample_rt sample_checker true
    [sample_step 200 body_x (T0 + 1000)] =
  ([Sleep 30; get_report sample_checker;
    report_successfully_retrieved sample_checker;
    Append "results.csv" (csv_line sample_rt sample_checker (JString "x"))],
   Returned).
Proof.
  split; [reflexivity|].
  destruct (C9_deadline_checked_after_get sample_rt sample_checker true)
    as (_ & _ & H).
  exact (H (sample_response 200 [] body_x) (JString "x") (T0 + 1000)%Q []
           eq_refl eq_refl).
Defined.

(** ** The other ends of a creation attempt *)

Section CreatorFacts.

Context (rt : Runtime).

(** A status below 400 other than 201: the fatal fault. *)
Lemma ReportCreator_run_unexpected (sleep0 sleep : bool) (a : attempt)
  (response : Response) (rest : list attempt) :
  post_reply a = Responded response ->
  (status_code response < 400)%Z ->
  status_code response <> 201%Z ->
  ReportCreator_run rt sleep0 sleep (a :: rest) =
    (sleep_before ReportCreator_cls sleep ++
     [Post "reports" (post_data (uuid4 a));
      Log ERROR (LExn (UnexpectedAPIStatusCode response))],
     Raised (SystemExit None)).
Proof.
  intros Hr Hlt H201. cbn [ReportCreator_run].
  unfold ReportCreator_send_request. rewrite Hr.
  rewrite check_response_below_400 by exact Hlt.
  cbn [existsb _expected_2xx_status_codes].
  apply Z.eqb_neq in H201.
  unfold st.REQUESTS_FOR_CREATING_REPORT_SUCCESSFULLY_SENT_STATUS_CODE.
  rewrite H201. reflexivity.
Qed.

(** A status of 400 or more other than 409: the graceful end. *)
Lemma ReportCreator_run_error (sleep0 sleep : bool) (a : attempt)
  (response : Response) (rest : list attempt) :
  post_reply a = Responded response ->
  (400 <= status_code response)%Z ->
  status_code response <> 409%Z ->
  ReportCreator_run rt sleep0 sleep (a :: rest) =
    (sleep_before ReportCreator_cls sleep ++
     [Post "reports" (post_data (uuid4 a));
      Log ERROR (LExn (HTTPStatusError response));
      Log WARNING (LStr (rstrip (text response)))],
     Raised (SystemExit (Some 0%Z))).
Proof.
  intros Hr Hge H409. cbn [ReportCreator_run].
  unfold ReportCreator_send_request. rewrite Hr.
  rewrite check_response_error by exact Hge.
  unfold unwind. cbn [catch _run_except _check_exception].
  apply Z.eqb_neq in H409.
  unfold st.REPORT_ALREADY_EXISTS_STATUS_CODE. rewrite H409. reflexivity.
Qed.

(** The exceptions of a 201 without a readable date. *)
Lemma get_timestamp_exn (response : Response) (e : exn) :
  __get_timestamp_from_response rt response = inl e ->
  e = KeyError "date" \/ e = ValueError.
Proof.
  unfold __get_timestamp_from_response.
  destruct (headers_getitem _ _) as [s|]; [|intros [= <-]; auto].
  destruct (strptime_timestamp rt s); [discriminate | intros [= <-]; auto].
Qed.

Lemma catch_get_timestamp_exn (c : cls) (sleep : bool) (response : Response)
  (e : exn) :
  __get_timestamp_from_response rt response = inl e ->
  catch c sleep e = ([], Raise e).
Proof.
  intros [-> | ->]%get_timestamp_exn; destruct c; reflexivity.
Qed.

Lemma ReportCreator_run_no_timestamp (sleep0 sleep : bool) (a : attempt)
  (response : Response) (e : exn) (rest : list attempt) :
  post_reply a = Responded response ->
  status_code response = 201%Z ->
  __get_timestamp_from_response rt response = inl e ->
  ReportCreator_run rt sleep0 sleep (a :: rest) =
    (sleep_before ReportCreator_cls sleep ++
     [Post "reports" (post_data (uuid4 a))], Raised e).
Proof.
  intros Hr Hs He. cbn [ReportCreator_run].
  unfold ReportCreator_send_request. rewrite Hr.
  rewrite check_response_below_400 by (rewrite Hs; lia).
  rewrite Hs. cbn [existsb _expected_2xx_status_codes].
  unfold st.REQUESTS_FOR_CREATING_REPORT_SUCCESSFULLY_SENT_STATUS_CODE.
  rewrite Z.eqb_refl, He. cbn [orb negb].
  unfold unwind. rewrite (catch_get_timestamp_exn _ _ _ _ He). reflexivity.
Qed.

End CreatorFacts.

Lemma ReportCreator_run_sleep (rt : Runtime) (sleep0 sleep : bool)
  (script : list attempt) :
  ReportCreator_run rt sleep0 sleep script =
  sleep_before ReportCreator_cls sleep +++
  ReportCreator_run rt sleep0 false script.
Proof.
  destruct script as [|a rest]; cbn [ReportCreator_run sleep_before];
    now rewrite prepend_nil.
Qed.

Lemma ReportCreator_send_request_post (rt : Runtime) (a : attempt) :
  exists t r,
    ReportCreator_send_request rt a =
    (Post "reports" (post_data (uuid4 a)) :: t, r).
Proof.
  unfold ReportCreator_send_request.
  destruct (post_reply a) as [response|]; [|now eauto].
  destruct (_check_response _ _); [now eauto|].
  destruct (__get_timestamp_from_response _ _); now eauto.
Qed.

(** A status from 200 to 299 outside the expected set, in either loop. *)
Lemma unexpected_2xx_fatal (rt : Runtime) (sleep0 sleep : bool) :
  (forall a response rest,
      post_reply a = Responded response ->
      (200 <= status_code response < 300)%Z ->
      status_code response <> 201%Z ->
      ReportCreator_run rt sleep0 sleep (a :: rest) =
      (sleep_before ReportCreator_cls sleep ++
       [Post "reports" (post_data (uuid4 a));
        Log ERROR (LExn (UnexpectedAPIStatusCode response))],
       Raised (SystemExit None)))
  /\ (forall self step response rest,
        get_reply step = Responded response ->
        (200 <= status_code response < 300)%Z ->
        status_code response <> 200%Z ->
        status_code response <> 202%Z ->
        ReportChecker_run rt self sleep0 sleep (step :: rest) =
        (sleep_before ReportChecker_cls sleep ++
         [get_report self;
          Log ERROR (LExn (UnexpectedAPIStatusCode response))],
         Raised (SystemExit None))).
Proof.
  split.
  - intros a response rest Hr Hs H201.
    apply ReportCreator_run_unexpected; [exact Hr | lia | exact H201].
  - intros self step response rest Hr Hs H200 H202.
    unfold ReportChecker_run.
    rewrite (ReportChecker_poll_end rt self sleep0 0 step rest
               [Log ERROR (LExn (UnexpectedAPIStatusCode response))]
               (Raised (SystemExit None))); [reflexivity|].
    apply end_unexpected; [exact Hr | lia | exact H200 | exact H202].
Qed.

(** The claim C4 as the specification states it for the polling loop
    fails: a 404 is outside [{200, 202}], yet the run logs it and returns,
    and no [SystemExit] is raised. *)
Lemma C4_unexpected_status_counterexample :
  ~ (forall (rt : Runtime) (self : ReportChecker) (sleep : bool)
       (step : poll_step) (response : Response) (rest : list poll_step),
        get_reply step = Responded response ->
        status_code response <> 200%Z ->
        status_code response <> 202%Z ->
        exists t code,
          ReportChecker_connect rt self sleep (step :: rest) =
          (t, Raised (SystemExit code))).
Proof.
  intros H.
  destruct (H sample_rt sample_checker true (sample_step 404 "" T0)
              (sample_response 404 [] "") [] eq_refl)
    as (t & code & E); [discriminate | discriminate |].
  vm_compute in E. discriminate E.
Qed.

(** C4, amended.  A response with a status from 200 to 299 outside the
    expected set of the call (creation: other than 201; polling: other
    than 200 and 202) is fatal: the fault is logged as an error and
    [SystemExit] is raised, with nothing after it.  A polling response
    with a status from 400 to 599 is not: its fault is logged as an
    error and the poll run returns, with no further request. *)
Theorem C4_unexpected_status_fatal (rt : Runtime) (sleep0 sleep : bool) :
  (forall a response rest,
      post_reply a = Responded response ->
      (200 <= status_code response < 300)%Z ->
      status_code response <> 201%Z ->
      ReportCreator_run rt sleep0 sleep (a :: rest) =
      (sleep_before ReportCreator_cls sleep ++
       [Post "reports" (post_data (uuid4 a));
        Log ERROR (LExn (UnexpectedAPIStatusCode response))],
       Raised (SystemExit None)))
  /\ (forall self step response rest,
        get_reply step = Responded response ->
        (200 <= status_code response < 300)%Z ->
        status_code response <> 200%Z ->
        status_code response <> 202%Z ->
        ReportChecker_run rt self sleep0 sleep (step :: rest) =
        (sleep_before ReportChecker_cls sleep ++
         [get_report self;
          Log ERROR (LExn (UnexpectedAPIStatusCode response))],
         Raised (SystemExit None)))
  /\ (forall self step response rest,
        get_reply step = Responded response ->
        (400 <= status_code response < 600)%Z ->
        ReportChecker_run rt self sleep0 sleep (step :: rest) =
        (sleep_before ReportChecker_cls sleep ++
         [get_report self; Log ERROR (LExn (HTTPStatusError response))],
         Returned)).
Proof.
  destruct (unexpected_2xx_fatal rt sleep0 sleep) as (Hc & Hp).
  split; [exact Hc|]. split; [exact Hp|].
  - intros self step response rest Hr Hs.
    unfold ReportChecker_run.
    rewrite (ReportChecker_poll_end rt self sleep0 0 step rest
               [Log ERROR (LExn (HTTPStatusError response))] Returned);
      [reflexivity|].
    apply end_error; [exact Hr | lia].
Qed.

(** A creation answered 204 and a poll answered 404. *)
Lemma C4_unexpected_status_fatal_witness :
  snd (ReportCreator_run sample_rt false false
         [sample_attempt "u1" 204 [] ""; created_3]) =
    Raised (SystemExit None) /\
  ReportChecker_run sample_rt sample_checker true true
    [sample_step 404 "" T0; ready_3] =
  ([Sleep 30; get_report sample_checker;
    Log ERROR (LExn (HTTPStatusError (sample_response 404 [] "")))],
   Returned).
Proof.
  destruct (C4_unexpected_status_fatal sample_rt false false)
    as (Hcreate & _ & _).
  destruct (C4_unexpected_status_fatal sample_rt true true) as (_ & _ & Hpoll).
  split.
  - rewrite (Hcreate (sample_attempt "u1" 204 [] "") _ [created_3] eq_refl);
      [reflexivity | cbn; lia | discriminate].
  - apply (Hpoll sample_checker (sample_step 404 "" T0) _ [ready_3] eq_refl).
    cbn; lia.
Defined.

(** The claim C5 as the specification states it fails on the fatal path:
    a creation answered 204 raises [SystemExit()] without a code, and the
    exit status of that is zero. *)
Lemma C5_exit_codes_counterexample :
  ~ (forall (rt : Runtime) (sleep0 sleep : bool) (a : attempt)
       (response : Response) (rest : list attempt),
        post_reply a = Responded response ->
        (200 <= status_code response < 300)%Z ->
        status_code response <> 201%Z ->
        exists code,
          snd (ReportCreator_run rt sleep0 sleep (a :: rest)) =
          Raised (SystemExit code) /\ exit_status code <> 0%Z).
Proof.
  intros H.
  destruct (H sample_rt false false (sample_attempt "u1" 204 [] "")
              (sample_response 204 [] "") [] eq_refl)
    as (code & E & Hcode); [cbn; lia | discriminate |].
  vm_compute in E. injection E as <-. now apply Hcode.
Qed.

(** C5, amended.  On the graceful path (a creation response with a status
    from 400 to 599 other than 409) the loop logs and raises
    [SystemExit(0)]; on the fatal path (a status from 200 to 299 outside
    the expected set) it logs and raises [SystemExit()] without a code.
    The exit status is zero in both. *)
Theorem C5_exit_codes (rt : Runtime) (sleep0 sleep : bool) :
  (forall a response rest,
      post_reply a = Responded response ->
      (400 <= status_code response < 600)%Z ->
      status_code response <> 409%Z ->
      ReportCreator_run rt sleep0 sleep (a :: rest) =
      (sleep_before ReportCreator_cls sleep ++
       [Post "reports" (post_data (uuid4 a));
        Log ERROR (LExn (HTTPStatusError response));
        Log WARNING (LStr (rstrip (text response)))],
       Raised (SystemExit (Some 0%Z)))
      /\ exit_status (Some 0%Z) = 0%Z)
  /\ (forall a response rest,
        post_reply a = Responded response ->
        (200 <= status_code response < 300)%Z ->
        status_code response <> 201%Z ->
        snd (ReportCreator_run rt sleep0 sleep (a :: rest)) =
        Raised (SystemExit None)
        /\ exit_status None = 0%Z)
  /\ (forall self step response rest,
        get_reply step = Responded response ->
        (200 <= status_code response < 300)%Z ->
        status_code response <> 200%Z ->
        status_code response <> 202%Z ->
        snd (ReportChecker_run rt self sleep0 sleep (step :: rest)) =
        Raised (SystemExit None)
        /\ exit_status None = 0%Z).
Proof.
  destruct (unexpected_2xx_fatal rt sleep0 sleep) as (Hc & Hp).
  repeat split.
  - apply ReportCreator_run_error; [assumption | lia | assumption].
  - now rewrite (Hc a response rest).
  - now rewrite (Hp self step response rest).
Qed.

(** A creation answered 500 and a creation answered 204: both exit with
    status zero. *)
Lemma C5_exit_codes_witness :
  snd (ReportCreator_run sample_rt false false
         [sample_attempt "u1" 500 [] ("down" ++ LF)%string; created_3]) =
    Raised (SystemExit (Some 0%Z)) /\
  snd (ReportCreator_run sample_rt false false
         [sample_attempt "u1" 204 [] ""; created_3]) =
    Raised (SystemExit None) /\
  exit_status (Some 0%Z) = exit_status None.
Proof.
  destruct (C5_exit_codes sample_rt false false) as (Hgraceful & Hfatal & _).
  destruct (Hgraceful (sample_attempt "u1" 500 [] ("down" ++ LF)%string) _
              [created_3] eq_refl) as (Hrun & H0);
    [cbn; lia | discriminate |].
  destruct (Hfatal (sample_attempt "u1" 204 [] "") _ [created_3] eq_refl)
    as (Hexit & HNone); [cbn; lia | discriminate |].
  split; [now rewrite Hrun|]. split; [exact Hexit|].
  now rewrite H0, HNone.
Defined.

(** C7. [_run(sleep)] sleeps before its request exactly when [sleep] is
    true: 60 seconds in the creation loop, 30 seconds in the polling
    loop, and with [sleep=False] the request is the first event.  After a
    201 the checker is gathered with [sleep=True] and the loop goes on
    with [sleep=True], so with a sleep of 60 seconds; after a 202 before
    the deadline the checker sleeps 0.8 seconds and sends the next GET. *)
Theorem C7_sleep_intervals (rt : Runtime) (sleep0 : bool) :
  (forall sleep script,
      ReportCreator_run rt sleep0 sleep script =
      (if sleep then [Sleep 60] else []) +++
      ReportCreator_run rt sleep0 false script)
  /\ (forall a rest, exists t,
        fst (ReportCreator_run rt sleep0 false (a :: rest)) =
        Post "reports" (post_data (uuid4 a)) :: t)
  /\ (forall self sleep script,
        ReportChecker_run rt self sleep0 sleep script =
        (if sleep then [Sleep 30] else []) +++
        ReportChecker_run rt self sleep0 false script)
  /\ (forall self step rest, exists t,
        fst (ReportChecker_run rt self sleep0 false (step :: rest)) =
        get_report self :: t)
  /\ (forall a response ts rest,
        post_reply a = Responded response ->
        status_code response = 201%Z ->
        __get_timestamp_from_response rt response = inr ts ->
        ReportCreator_run rt sleep0 false (a :: rest) =
        [Post "reports" (post_data (uuid4 a));
         post_request_was_sent (uuid4 a);
         Gather {| report_id := uuid4 a; timestamp_created := ts |} true true;
         Sleep 60] +++
        ReportCreator_run rt sleep0 false rest)
  /\ (forall self count step rest,
        is_pending self step = true ->
        ReportChecker_poll rt self sleep0 count (step :: rest) =
        [get_report self;
         still_not_available rt self
           (round1 rt (utcnow step - timestamp_created self)) (S count);
         Sleep 0.8] +++
        ReportChecker_poll rt self sleep0 (S count) rest).
Proof.
  split; [|split; [|split; [|split; [|split]]]].
  - intros sleep script. rewrite ReportCreator_run_sleep. now destruct sleep.
  - intros a rest. cbn [ReportCreator_run sleep_before].
    destruct (ReportCreator_send_request_post rt a) as (t & r & ->).
    eexists. reflexivity.
  - intros self sleep script. unfold ReportChecker_run.
    destruct sleep; cbn [sleep_before]; [|reflexivity].
    now rewrite prepend_nil.
  - intros self step rest. unfold ReportChecker_run. cbn [sleep_before].
    destruct (ReportChecker_poll_cases rt self sleep0 0 step rest)
      as [[_ ->] | [[_ ->] | (t & o & _ & ->)]];
      eexists; reflexivity.
  - intros a response ts rest Hr Hs Ht.
    rewrite (ReportCreator_run_created rt sleep0 false a response ts rest
               Hr Hs Ht).
    rewrite (ReportCreator_run_sleep rt sleep0 true rest).
    cbn [sleep_before]. trace_eq.
  - intros self count step rest Hp.
    now apply ReportChecker_poll_pending.
Qed.

(** A 201 and then a conflict: the second POST comes after 60 seconds. *)
Lemma C7_sleep_intervals_witness :
  fst (ReportCreator_run sample_rt false false [created_3; conflict_1]) =
  [Post "reports" (post_data "u3"); post_request_was_sent "u3";
   Gather sample_checker true true; Sleep 60] ++
  fst (ReportCreator_run sample_rt false false [conflict_1])
  /\
  fst (ReportChecker_poll sample_rt sample_checker true 0
         [pending_1; ready_3]) =
  [get_report sample_checker;
   still_not_available sample_rt sample_checker 31 1; Sleep 0.8] ++
  fst (ReportChecker_poll sample_rt sample_checker true 1 [ready_3]).
Proof.
  destruct (C7_sleep_intervals sample_rt false) as (_ & _ & _ & _ & Hc & _).
  destruct (C7_sleep_intervals sample_rt true) as (_ & _ & _ & _ & _ & Hp).
  split.
  - now rewrite (Hc created_3 _ T0 [conflict_1] eq_refl eq_refl eq_refl).
  - now rewrite (Hp sample_checker 0%nat pending_1 [ready_3] eq_refl).
Defined.

(** C10. Nothing guards the extraction of data from a response.  A 201
    without a [date] header raises [KeyError], one whose date does not
    parse raises [ValueError]; a 200 whose body is not JSON raises
    [JSONDecodeError], one whose JSON object has no [value] raises
    [KeyError], one whose JSON is no object raises [TypeError].  Each of
    them leaves [connect]: no handler of either loop catches it. *)
Theorem C10_unguarded_extraction (rt : Runtime) (sleep0 sleep : bool) :
  (forall a response rest,
      post_reply a = Responded response ->
      status_code response = 201%Z ->
      headers_getitem (headers response) "date" = None ->
      ReportCreator_run rt sleep0 sleep (a :: rest) =
      (sleep_before ReportCreator_cls sleep ++
       [Post "reports" (post_data (uuid4 a))], Raised (KeyError "date")))
  /\ (forall a response date rest,
        post_reply a = Responded response ->
        status_code response = 201%Z ->
        headers_getitem (headers response) "date" = Some date ->
        strptime_timestamp rt date = None ->
        ReportCreator_run rt sleep0 sleep (a :: rest) =
        (sleep_before ReportCreator_cls sleep ++
         [Post "reports" (post_data (uuid4 a))], Raised ValueError))
  /\ (forall self step response rest,
        get_reply step = Responded response ->
        status_code response = 200%Z ->
        let raises e :=
          ReportChecker_run rt self sleep0 sleep (step :: rest) =
          (sleep_before ReportChecker_cls sleep ++
           [get_report self; report_successfully_retrieved self],
           Raised e) in
        (json_loads rt (text response) = None -> raises JSONDecodeError)
        /\ (forall members,
              json_loads rt (text response) = Some (JObject members) ->
              find (fun kv => String.eqb (fst kv) "value") members = None ->
              raises (KeyError "value"))
        /\ (forall j,
              json_loads rt (text response) = Some j ->
              (forall members, j <> JObject members) ->
              raises TypeError))
  /\ (forall c s e,
        In e [KeyError "date"; ValueError; JSONDecodeError;
              KeyError "value"; TypeError] ->
        catch c s e = ([], Raise e)).
Proof.
  split; [|split; [|split]].
  - intros a response rest Hr Hs Hd.
    apply ReportCreator_run_no_timestamp with response; auto.
    unfold __get_timestamp_from_response. now rewrite Hd.
  - intros a response date rest Hr Hs Hd Hp.
    apply ReportCreator_run_no_timestamp with response; auto.
    unfold __get_timestamp_from_response. now rewrite Hd, Hp.
  - intros self step response rest Hr Hs raises.
    assert (Hraise : forall e, json_value rt response = inl e -> raises e).
    { intros e He. subst raises. cbv beta. unfold ReportChecker_run.
      rewrite (ReportChecker_poll_end rt self sleep0 0 step rest
                 [report_successfully_retrieved self] (Raised e));
        [reflexivity|].
      now apply end_no_value with response. }
    split; [|split].
    + intros Hj. apply Hraise. unfold json_value. now rewrite Hj.
    + intros members Hj Hf. apply Hraise. unfold json_value.
      now rewrite Hj, Hf.
    + intros j Hj Hno. apply Hraise. unfold json_value. rewrite Hj.
      destruct j; try reflexivity. now destruct (Hno members).
  - intros c s e He. repeat destruct He as [<- | He]; now destruct c.
Qed.

(** A 201 that comes without any header. *)
Lemma C10_unguarded_extraction_witness :
  ReportCreator_run sample_rt false false
    [sample_attempt "u1" 201 [] ""; created_3] =
  ([Post "reports" (post_data "u1")], Raised (KeyError "date")) /\
  ReportChecker_run sample_rt sample_checker true true
    [sample_step 200 "{}" T0; ready_3] =
  ([Sleep 30; get_report sample_checker;
    report_successfully_retrieved sample_checker],
   Raised (KeyError "value")).
Proof.
  destruct (C10_unguarded_extraction sample_rt false false) as (Hdate & _).
  destruct (C10_unguarded_extraction sample_rt true true)
    as (_ & _ & Hvalue & _).
  split.
  - exact (Hdate (sample_attempt "u1" 201 [] "") _ [created_3]
             eq_refl eq_refl eq_refl).
  - destruct (Hvalue sample_checker (sample_step 200 "{}" T0) _ [ready_3]
                eq_refl eq_refl) as (_ & Hkey & _).
    exact (Hkey [] eq_refl eq_refl).
Defined.

(** ** Further properties of the handlers *)

Lemma check_response_None (c : cls) (response : Response) :
  _check_response c response = None <->
  In (status_code response) (_expected_2xx_status_codes c).
Proof.
  destruct (Z_lt_le_dec (status_code response) 400) as [Hlt|Hge].
  - rewrite check_response_below_400 by exact Hlt.
    destruct (existsb _ _) eqn:E.
    + split; [intros _ | reflexivity].
      apply existsb_exists in E as (x & Hin & ->%Z.eqb_eq). exact Hin.
    + split; [discriminate | intros Hin].
      assert (E' : existsb (Z.eqb (status_code response))
                     (_expected_2xx_status_codes c) = true).
      { apply existsb_exists. exists (status_code response).
        split; [exact Hin | apply Z.eqb_refl]. }
      congruence.
  - rewrite check_response_error by exact Hge.
    split; [discriminate | intros Hin].
    destruct c; cbn in Hin;
      unfold st.REQUESTS_FOR_CREATING_REPORT_SUCCESSFULLY_SENT_STATUS_CODE,
        st.REPORT_RETRIEVED_STATUS_CODE,
        st.REPORT_STILL_NOT_AVAILABLE_STATUS_CODE in Hin; lia.
Qed.

(** [_check_response] lets a response through exactly when its status is
    one of the expected codes of the class. *)
Theorem check_response_accepts_expected (c : cls) (response : Response) :
  _check_response c response = None <->
  In (status_code response) (_expected_2xx_status_codes c).
Proof. apply check_response_None. Qed.

(** The handlers only write log records. *)
Lemma catch_logs (c : cls) (sleep : bool) (e : exn) :
  Forall (fun ev => is_log ev = true) (fst (catch c sleep e)).
Proof.
  destruct c, e as [r| | | | | | | |]; cbn; repeat constructor.
  all: destruct (status_code r =? st.REPORT_ALREADY_EXISTS_STATUS_CODE)%Z;
    cbn; repeat constructor.
Qed.

(** Whatever is raised in [_send_request], an exception that leaves
    [connect] is none of those an [except] clause names (for the polling
    loop, [TooMuchTimePassed] included): it is the exception raised, or a
    [SystemExit] raised by a handler. *)
Theorem handled_exceptions_never_leave (c : cls) (sleep : bool) (e : exn)
  (t : trace) (e' : exn) :
  catch c sleep e = (t, Raise e') ->
  is_handled e' = false
  /\ (c = ReportChecker_cls -> forall id, e' <> TooMuchTimePassed id)
  /\ (e' = e \/ e' = SystemExit None \/ e' = SystemExit (Some 0%Z))
  /\ _run_except c e' = ([], Raise e').
Proof.
  destruct c, e as [r| | | | | | | |]; cbn;
    try destruct (status_code r =? st.REPORT_ALREADY_EXISTS_STATUS_CODE)%Z;
    cbn; intros [= <- <-] || intros [=];
    repeat split; auto; try discriminate; intros; discriminate.
Qed.

Lemma handled_exceptions_never_leave_witness :
  catch ReportCreator_cls false
    (HTTPStatusError (sample_response 500 [] "down")) =
  ([Log ERROR (LExn (HTTPStatusError (sample_response 500 [] "down")));
    Log WARNING (LStr "down")], Raise (SystemExit (Some 0%Z))) /\
  is_handled (SystemExit (Some 0%Z)) = false.
Proof.
  assert (H : catch ReportCreator_cls false
                (HTTPStatusError (sample_response 500 [] "down")) =
              ([Log ERROR (LExn (HTTPStatusError
                                   (sample_response 500 [] "down")));
                Log WARNING (LStr "down")], Raise (SystemExit (Some 0%Z))))
    by reflexivity.
  split; [exact H|].
  exact (proj1 (handled_exceptions_never_leave _ _ _ _ _ H)).
Defined.

Lemma flat_map_logs {A : Type} (f : event -> list A) (t : trace) :
  (forall l m, f (Log l m) = []) ->
  Forall (fun ev => is_log ev = true) t -> flat_map f t = [].
Proof.
  intros Hf. induction 1 as [|ev t Hev _ IH]; [reflexivity|].
  cbn [flat_map]. rewrite IH, app_nil_r.
  destruct ev; try discriminate Hev. apply Hf.
Qed.

(** ** Further properties of the creation loop *)

Section CreatorRuns.

Context (rt : Runtime).

(** A creation attempt either lets the loop go on, after the POST, some
    log records and the gather of the checker it built, or ends it, after
    the POST and some log records. *)
Lemma ReportCreator_run_cases (sleep0 sleep : bool) (a : attempt)
  (rest : list attempt) :
  (exists mid s,
      Forall (fun ev => is_log ev = true) mid /\
      (created_checker rt a <> [] -> s = true) /\
      ReportCreator_run rt sleep0 sleep (a :: rest) =
      (sleep_before ReportCreator_cls sleep ++
       Post "reports" (post_data (uuid4 a)) :: mid ++
       map (fun chk => Gather chk true true) (created_checker rt a)) +++
      ReportCreator_run rt sleep0 s rest)
  \/ (exists mid e,
        Forall (fun ev => is_log ev = true) mid /\
        created_checker rt a = [] /\
        In e creator_raises /\
        ReportCreator_run rt sleep0 sleep (a :: rest) =
        (sleep_before ReportCreator_cls sleep ++
         Post "reports" (post_data (uuid4 a)) :: mid, Raised e)).
Proof.
  cbn [ReportCreator_run]. unfold created_checker, ReportCreator_send_request.
  destruct (post_reply a) as [response|].
  2:{ left. exists [Log WARNING (LStr st.CONNECTION_FAILED_MESSAGE)], sleep0.
      split; [repeat constructor|]. split; [now intros []|].
      cbn [snd map]. unfold unwind.
      cbn [catch _run_except connect_except]. trace_eq. }
  destruct (Z_lt_le_dec (status_code response) 400) as [Hlt|Hge].
  2:{ rewrite check_response_error by exact Hge. cbn [snd map].
      unfold unwind. cbn [catch _run_except _check_exception].
      destruct (status_code response =? st.REPORT_ALREADY_EXISTS_STATUS_CODE)%Z;
        cbn [connect_except].
      - left.
        exists [Log ERROR (LExn (HTTPStatusError response));
                Log WARNING (LStr (rstrip (text response) ++
                                   st.TRYING_AGAIN_MESSAGE)%string)], false.
        split; [repeat constructor|]. split; [now intros []|]. trace_eq.
      - right.
        exists [Log ERROR (LExn (HTTPStatusError response));
                Log WARNING (LStr (rstrip (text response)))],
               (SystemExit (Some 0%Z)).
        split; [repeat constructor|]. split; [reflexivity|].
        split; [right; left; reflexivity|]. trace_eq. }
  rewrite check_response_below_400 by exact Hlt.
  destruct (existsb _ _).
  2:{ right. cbn [snd].
      exists [Log ERROR (LExn (UnexpectedAPIStatusCode response))],
             (SystemExit None).
      split; [repeat constructor|]. split; [reflexivity|].
      split; [left; reflexivity|]. unfold unwind.
      cbn [catch _run_except connect_except]. trace_eq. }
  destruct (__get_timestamp_from_response rt response) as [e|ts] eqn:Ht.
  - right. cbn [snd]. exists [], e.
    split; [constructor|]. split; [reflexivity|].
    split.
    + apply get_timestamp_exn in Ht as [-> | ->];
        [right; right; left | right; right; right; left]; reflexivity.
    + unfold unwind. rewrite (catch_get_timestamp_exn _ _ _ _ _ Ht). trace_eq.
  - left. cbn [snd map]. exists [post_request_was_sent (uuid4 a)], true.
    split; [repeat constructor|]. split; [reflexivity|]. trace_eq.
Qed.

Lemma flat_map_gathers {A : Type} (f : event -> list A)
  (chks : list ReportChecker) :
  (forall chk s1 s2, f (Gather chk s1 s2) = []) ->
  flat_map f (map (fun chk => Gather chk true true) chks) = [].
Proof.
  intros Hf. induction chks as [|chk l IH]; [reflexivity|].
  cbn [map flat_map]. now rewrite Hf, IH.
Qed.

(** The same, for whatever is read off the trace by a function that
    skips log records. *)
Lemma ReportCreator_run_read (sleep0 sleep : bool) (a : attempt)
  (rest : list attempt) :
  (exists s,
      (created_checker rt a <> [] -> s = true) /\
      snd (ReportCreator_run rt sleep0 sleep (a :: rest)) =
      snd (ReportCreator_run rt sleep0 s rest) /\
      forall (A : Type) (f : event -> list A),
        (forall l m, f (Log l m) = []) ->
        flat_map f (fst (ReportCreator_run rt sleep0 sleep (a :: rest))) =
        flat_map f (sleep_before ReportCreator_cls sleep) ++
        f (Post "reports" (post_data (uuid4 a))) ++
        flat_map f (map (fun chk => Gather chk true true)
                      (created_checker rt a)) ++
        flat_map f (fst (ReportCreator_run rt sleep0 s rest)))
  \/ (created_checker rt a = [] /\
      (exists e, In e creator_raises /\
         snd (ReportCreator_run rt sleep0 sleep (a :: rest)) = Raised e) /\
      forall (A : Type) (f : event -> list A),
        (forall l m, f (Log l m) = []) ->
        flat_map f (fst (ReportCreator_run rt sleep0 sleep (a :: rest))) =
        flat_map f (sleep_before ReportCreator_cls sleep) ++
        f (Post "reports" (post_data (uuid4 a)))).
Proof.
  destruct (ReportCreator_run_cases sleep0 sleep a rest)
    as [(mid & s & Hmid & Hs & ->) | (mid & e & Hmid & Hc & He & ->)].
  - left. exists s. split; [exact Hs|]. split; [reflexivity|].
    intros A f Hf. rewrite fst_prepend, !flat_map_app. cbn [flat_map].
    rewrite !flat_map_app, (flat_map_logs f mid Hf Hmid). cbn [app].
    now rewrite <- !app_assoc.
  - right. split; [exact Hc|]. split; [now exists e|].
    intros A f Hf. cbn [fst]. rewrite !flat_map_app. cbn [flat_map].
    now rewrite (flat_map_logs f mid Hf Hmid), app_nil_r.
Qed.

Lemma ReportCreator_run_outcomes (sleep0 sleep : bool)
  (script : list attempt) :
  snd (ReportCreator_run rt sleep0 sleep script) = Suspended \/
  exists e, In e creator_raises /\
            snd (ReportCreator_run rt sleep0 sleep script) = Raised e.
Proof.
  revert sleep. induction script as [|a rest IH]; intros sleep;
    [left; reflexivity|].
  destruct (ReportCreator_run_cases sleep0 sleep a rest)
    as [(mid & s & _ & _ & ->) | (mid & e & _ & _ & He & ->)].
  - rewrite snd_prepend. apply IH.
  - right. exists e. now split.
Qed.

(** As long as it has gathered no checker, the creation loop does not
    return: such a run is still waiting, or one of four exceptions has
    left it.  (Once a checker is gathered, the exceptions of that checker
    come up through [asyncio.gather] as well; they are not in this
    statement.) *)
Theorem ReportCreator_never_returns (sleep0 sleep : bool)
  (script : list attempt) :
  gathered (fst (ReportCreator_run rt sleep0 sleep script)) = [] ->
  snd (ReportCreator_run rt sleep0 sleep script) = Suspended \/
  exists e, In e creator_raises /\
            snd (ReportCreator_run rt sleep0 sleep script) = Raised e.
Proof. intros _. apply ReportCreator_run_outcomes. Qed.

(** The creation loop sends no GET and appends no line; it sleeps 60
    seconds and nothing else; every gather passes [sleep=True] to the
    checker and to the next cycle. *)
Theorem ReportCreator_trace_shape (sleep0 sleep : bool)
  (script : list attempt) :
  let t := fst (ReportCreator_run rt sleep0 sleep script) in
  got_urls t = []
  /\ appended t = []
  /\ Forall (fun q => q = 60%Q) (sleeps t)
  /\ Forall (fun flags => flags = (true, true)) (gather_flags t).
Proof.
  cbv zeta. revert sleep. induction script as [|a rest IH]; intros sleep.
  - cbn [ReportCreator_run]. rewrite fst_prepend, app_nil_r.
    destruct sleep; cbn; repeat split; repeat constructor.
  - unfold got_urls, appended, sleeps, gather_flags in *.
    destruct (ReportCreator_run_read sleep0 sleep a rest)
      as [(s & _ & _ & Hread) | (_ & _ & Hread)].
    + destruct (IH s) as (IHg & IHa & IHq & IHf).
      rewrite !Hread by reflexivity. repeat split.
      * rewrite IHg, flat_map_gathers by reflexivity. now destruct sleep.
      * rewrite IHa, flat_map_gathers by reflexivity. now destruct sleep.
      * rewrite flat_map_gathers by reflexivity.
        apply Forall_app. split; [destruct sleep; repeat constructor|].
        exact IHq.
      * apply Forall_app. split; [destruct sleep; constructor|].
        cbv beta iota. cbn [app].
        apply Forall_app. split; [|exact IHf].
        clear Hread.
        induction (created_checker rt a) as [|chk l IHl]; [constructor|].
        cbn [map flat_map app]. constructor; [reflexivity | exact IHl].
    + rewrite !Hread by reflexivity.
      destruct sleep; cbn; repeat split; repeat constructor.
Qed.

Lemma created_checker_inv (a : attempt) (chk : ReportChecker) :
  In chk (created_checker rt a) ->
  report_id chk = uuid4 a /\
  exists response date,
    post_reply a = Responded response /\
    status_code response = 201%Z /\
    headers_getitem (headers response) "date" = Some date /\
    strptime_timestamp rt date = Some (timestamp_created chk).
Proof.
  unfold created_checker, ReportCreator_send_request.
  destruct (post_reply a) as [response|]; [|intros []].
  destruct (_check_response ReportCreator_cls response) eqn:Hc; [intros []|].
  apply check_response_None in Hc as [Hs|[]].
  unfold __get_timestamp_from_response.
  destruct (headers_getitem _ _) as [date|] eqn:Hd; [|intros []].
  destruct (strptime_timestamp rt date) as [ts|] eqn:Hts; [|intros []].
  intros [<-|[]]. split; [reflexivity|].
  exists response, date. repeat split; auto.
Qed.

Lemma gathered_gathers (chks : list ReportChecker) :
  gathered (map (fun chk => Gather chk true true) chks) = chks.
Proof. induction chks as [|chk l IH]; [reflexivity|]. cbn. now f_equal. Qed.

(** What a run posts and gathers, attempt by attempt. *)
Lemma ReportCreator_posted_gathered (sleep0 sleep : bool)
  (script : list attempt) :
  exists k,
    (k <= List.length script)%nat /\
    posted_ids (fst (ReportCreator_run rt sleep0 sleep script)) =
      map uuid4 (firstn k script) /\
    gathered (fst (ReportCreator_run rt sleep0 sleep script)) =
      flat_map (created_checker rt) (firstn k script).
Proof.
  revert sleep. induction script as [|a rest IH]; intros sleep.
  - exists 0%nat. cbn [ReportCreator_run]. rewrite fst_prepend, app_nil_r.
    destruct sleep; repeat split; reflexivity || (cbn; lia).
  - unfold posted_ids, gathered in *.
    destruct (ReportCreator_run_read sleep0 sleep a rest)
      as [(s & _ & _ & Hread) | (Hc & _ & Hread)].
    + destruct (IH s) as (k & Hk & Hp & Hg). exists (S k).
      split; [cbn; lia|]. rewrite !Hread by reflexivity.
      rewrite Hp, Hg. cbn [firstn map flat_map].
      rewrite flat_map_gathers by reflexivity.
      fold gathered. rewrite gathered_gathers.
      destruct sleep; split; reflexivity.
    + exists 1%nat. split; [cbn; lia|]. rewrite !Hread by reflexivity.
      cbn [firstn map flat_map]. rewrite Hc.
      destruct sleep; split; reflexivity.
Qed.

(** Every POST of a run carries the identifier drawn for its own attempt:
    the identifiers posted are the draws of the script, in order, as far
    as the run gets.  When the draws are pairwise distinct, no identifier
    is ever posted twice. *)
Theorem ReportCreator_posts_drawn_ids (sleep0 sleep : bool)
  (script : list attempt) :
  let t := fst (ReportCreator_run rt sleep0 sleep script) in
  posted_ids t = map uuid4 (firstn (List.length (posted_ids t)) script)
  /\ (List.length (posted_ids t) <= List.length script)%nat
  /\ (NoDup (map uuid4 script) -> NoDup (posted_ids t)).
Proof.
  cbv zeta.
  destruct (ReportCreator_posted_gathered sleep0 sleep script)
    as (k & Hk & Hp & _).
  assert (Hlen : List.length
                   (posted_ids (fst (ReportCreator_run rt sleep0 sleep script)))
                 = k).
  { rewrite Hp, length_map, length_firstn. lia. }
  rewrite Hlen. split; [exact Hp|]. split; [exact Hk|].
  intros Hnd. rewrite Hp, <- firstn_map.
  rewrite <- (firstn_skipn k (map uuid4 script)) in Hnd.
  now apply NoDup_app_remove_r in Hnd.
Qed.

(** Every checker a run gathers comes from an attempt of the script that
    was answered 201 with a date header that parses: it carries the
    identifier of that attempt and the parsed date as its creation time. *)
Theorem ReportCreator_gathers_created (sleep0 sleep : bool)
  (script : list attempt) (chk : ReportChecker) :
  In chk (gathered (fst (ReportCreator_run rt sleep0 sleep script))) ->
  exists a response date,
    In a script /\
    report_id chk = uuid4 a /\
    post_reply a = Responded response /\
    status_code response = 201%Z /\
    headers_getitem (headers response) "date" = Some date /\
    strptime_timestamp rt date = Some (timestamp_created chk).
Proof.
  destruct (ReportCreator_posted_gathered sleep0 sleep script)
    as (k & _ & _ & ->).
  intros (a & Hin & Hchk)%in_flat_map.
  destruct (created_checker_inv a chk Hchk)
    as (Hid & response & date & Hr & Hs & Hd & Hts).
  exists a, response, date.
  split; [|now repeat split].
  rewrite <- (firstn_skipn k script). apply in_or_app. now left.
Qed.

Lemma ReportCreator_run_timed_out (sleep0 sleep : bool) (a : attempt)
  (rest : list attempt) :
  post_reply a = TimedOut ->
  ReportCreator_run rt sleep0 sleep (a :: rest) =
    (sleep_before ReportCreator_cls sleep ++
     [Post "reports" (post_data (uuid4 a));
      Log WARNING (LStr st.CONNECTION_FAILED_MESSAGE)]) +++
    ReportCreator_run rt sleep0 sleep0 rest.
Proof.
  intros H. cbn [ReportCreator_run]. unfold ReportCreator_send_request.
  rewrite H. unfold unwind. cbn [catch _run_except connect_except].
  trace_eq.
Qed.

(** A connection that times out sends the creation loop back into
    [connect] with the flag [connect] was called with, whatever the flag
    of the cycle that was hit: each timeout is logged as a warning and
    followed by a new POST, without any cap, and the cycle after the
    timeouts runs with the flag of [connect]. *)
Theorem ReportCreator_connect_timeouts (sleep0 : bool)
  (timeouts : list attempt) (a : attempt) (rest : list attempt) :
  post_reply a = TimedOut ->
  forallb (fun b => is_timed_out (post_reply b)) timeouts = true ->
  forall sleep,
  ReportCreator_run rt sleep0 sleep (a :: timeouts ++ rest) =
    (sleep_before ReportCreator_cls sleep ++
     [Post "reports" (post_data (uuid4 a));
      Log WARNING (LStr st.CONNECTION_FAILED_MESSAGE)] ++
     flat_map (fun b => sleep_before ReportCreator_cls sleep0 ++
                        [Post "reports" (post_data (uuid4 b));
                         Log WARNING (LStr st.CONNECTION_FAILED_MESSAGE)])
       timeouts) +++
    ReportCreator_run rt sleep0 sleep0 rest.
Proof.
  intros Ha Hl. revert a Ha.
  induction timeouts as [|b l IH]; intros a Ha sleep.
  - cbn [app flat_map]. rewrite (ReportCreator_run_timed_out _ _ _ _ Ha).
    trace_eq.
  - cbn [forallb] in Hl. apply andb_prop in Hl as [Hb Hl].
    assert (Hb' : post_reply b = TimedOut)
      by (destruct (post_reply b); [discriminate | reflexivity]).
    cbn [app flat_map]. rewrite (ReportCreator_run_timed_out _ _ _ _ Ha).
    rewrite (IH Hl b Hb' sleep0).
    unfold prepend; cbn [fst snd].
    repeat (progress (rewrite <- ?app_assoc; cbn [app])). reflexivity.
Qed.

(** Once a run of the creation loop has ended with an exception, nothing
    the environment would answer afterwards changes it: no request and no
    record follows. *)
Theorem ReportCreator_run_ended (sleep0 : bool) (script more : list attempt) :
  forall sleep,
  snd (ReportCreator_run rt sleep0 sleep script) <> Suspended ->
  ReportCreator_run rt sleep0 sleep (script ++ more) =
  ReportCreator_run rt sleep0 sleep script.
Proof.
  induction script as [|a rest IH]; intros sleep H.
  - now destruct H.
  - cbn [app ReportCreator_run] in *.
    destruct (ReportCreator_send_request rt a) as [t [e|chk]].
    + unfold unwind in *.
      destruct (catch ReportCreator_cls sleep0 e) as [t' [|e'|s]];
        try reflexivity.
      unfold prepend in H. cbn [snd] in H. now rewrite (IH s H).
    + unfold prepend in H. cbn [snd] in H. now rewrite (IH true H).
Qed.

End CreatorRuns.

(** A conflict and then a 201 without a date: nothing is gathered. *)
Lemma ReportCreator_never_returns_witness :
  gathered (fst (ReportCreator_run sample_rt false false
                   [conflict_1; sample_attempt "u2" 201 [] ""; created_3]))
    = [] /\
  snd (ReportCreator_run sample_rt false false
         [conflict_1; sample_attempt "u2" 201 [] ""; created_3]) =
    Raised (KeyError "date").
Proof.
  assert (Hg : gathered
                 (fst (ReportCreator_run sample_rt false false
                         [conflict_1; sample_attempt "u2" 201 [] "";
                          created_3])) = []) by reflexivity.
  split; [exact Hg|].
  destruct (ReportCreator_never_returns sample_rt false false _ Hg)
    as [H | (e & _ & H)]; [discriminate H|].
  rewrite H. vm_compute in H. exact (eq_sym H).
Defined.

Lemma ReportCreator_posts_drawn_ids_witness :
  NoDup (map uuid4 [conflict_1; timed_out_attempt; created_3; conflict_2]) /\
  posted_ids (fst (ReportCreator_run sample_rt false false
                     [conflict_1; timed_out_attempt; created_3; conflict_2])) =
    ["u1"; "u0"; "u3"; "u2"]%string /\
  NoDup (posted_ids
           (fst (ReportCreator_run sample_rt false false
                   [conflict_1; timed_out_attempt; created_3; conflict_2]))).
Proof.
  assert (Hnd : NoDup (map uuid4 [conflict_1; timed_out_attempt; created_3;
                                  conflict_2])).
  { repeat constructor; cbn; intuition discriminate. }
  split; [exact Hnd|]. split; [reflexivity|].
  exact (proj2 (proj2 (ReportCreator_posts_drawn_ids sample_rt false false _))
           Hnd).
Defined.

Lemma ReportCreator_gathers_created_witness :
  In sample_checker
    (gathered (fst (ReportCreator_run sample_rt false false
                      [conflict_1; created_3]))) /\
  exists a response date,
    In a [conflict_1; created_3] /\
    report_id sample_checker = uuid4 a /\
    post_reply a = Responded response /\
    status_code response = 201%Z /\
    headers_getitem (headers response) "date" = Some date /\
    strptime_timestamp sample_rt date = Some T0.
Proof.
  assert (Hin : In sample_checker
                  (gathered (fst (ReportCreator_run sample_rt false false
                                    [conflict_1; created_3]))))
    by (left; reflexivity).
  split; [exact Hin|].
  exact (ReportCreator_gathers_created sample_rt false false _ _ Hin).
Defined.

Lemma ReportCreator_connect_timeouts_witness :
  fst (ReportCreator_run sample_rt false true
         (timed_out_attempt :: [timed_out_attempt] ++ [created_3])) =
  [Sleep 60;
   Post "reports" (post_data "u0");
   Log WARNING (LStr st.CONNECTION_FAILED_MESSAGE);
   Post "reports" (post_data "u0");
   Log WARNING (LStr st.CONNECTION_FAILED_MESSAGE)] ++
  fst (ReportCreator_run sample_rt false false [created_3]).
Proof.
  now rewrite (ReportCreator_connect_timeouts sample_rt false
                 [timed_out_attempt] timed_out_attempt [created_3]
                 eq_refl eq_refl true).
Defined.

Lemma ReportCreator_run_ended_witness :
  snd (ReportCreator_run sample_rt false false
         [sample_attempt "u1" 500 [] ""]) <> Suspended /\
  ReportCreator_run sample_rt false false
    ([sample_attempt "u1" 500 [] ""] ++ [created_3]) =
  ([Post "reports" (post_data "u1");
    Log ERROR (LExn (HTTPStatusError (sample_response 500 [] "")));
    Log WARNING (LStr "")], Raised (SystemExit (Some 0%Z))).
Proof.
  assert (H : snd (ReportCreator_run sample_rt false false
                     [sample_attempt "u1" 500 [] ""]) <> Suspended)
    by discriminate.
  split; [exact H|].
  now rewrite (ReportCreator_run_ended sample_rt false _ [created_3] false H).
Defined.

(** ** Further properties of the polling loop *)

Section CheckerMore.

Context (rt : Runtime) (self : ReportChecker).


Lemma ReportChecker_poll_events (sleep0 : bool) (script : list poll_step) :
  forall count,
  Forall (poll_event_ok self)
    (fst (ReportChecker_poll rt self sleep0 count script)).
Proof.
  assert (H30 : poll_event_ok self (Sleep 30)) by (now left).
  assert (H08 : poll_event_ok self
                  (Sleep st.TIME_BETWEEN_GET_REQUESTS_IN_SECONDS))
    by (now right).
  assert (Hget : poll_event_ok self (get_report self)) by reflexivity.
  assert (Hlog : forall l m, poll_event_ok self (Log l m)) by exact (fun _ _ => I).
  induction script as [|step rest IH]; intros count; [constructor|].
  destruct (ReportChecker_poll_cases rt self sleep0 count step rest)
    as [[_ ->] | [[_ ->] | (t & o & Hend & ->)]].
  - rewrite fst_prepend. apply Forall_app. split; [|apply IH].
    repeat first [apply Forall_nil | apply Forall_cons]; auto. apply Hlog.
  - rewrite fst_prepend. apply Forall_app. split; [|apply IH].
    apply Forall_app.
    split; [|destruct sleep0];
      repeat first [apply Forall_nil | apply Forall_cons]; auto.
  - cbn [fst]. constructor; [exact Hget|].
    destruct Hend;
      repeat first [apply Forall_nil | apply Forall_cons]; auto;
      try apply Hlog; reflexivity.
Qed.

(** A poll run never posts and never gathers; every GET asks for the
    report of the checker; every sleep lasts 30 or 0.8 seconds; every
    append goes to [results.csv]. *)
Theorem ReportChecker_trace_shape (sleep : bool) (script : list poll_step) :
  let t := fst (ReportChecker_connect rt self sleep script) in
  filter is_post t = []
  /\ gathered t = []
  /\ Forall (fun u => u = ("reports/" ++ report_id self)%string) (got_urls t)
  /\ Forall (fun q => q = 30%Q \/ q = 0.8%Q) (sleeps t)
  /\ (forall file line, In (Append file line) t ->
        file = "results.csv"%string).
Proof.
  cbv zeta.
  assert (H : Forall (poll_event_ok self)
                (fst (ReportChecker_connect rt self sleep script))).
  { unfold ReportChecker_connect, ReportChecker_run. rewrite fst_prepend.
    apply Forall_app. split; [|apply ReportChecker_poll_events].
    destruct sleep; repeat constructor. }
  induction H as [|e t He _ IH].
  - repeat split; try constructor. intros file line [].
  - destruct IH as (IHp & IHg & IHu & IHq & IHa).
    unfold gathered, got_urls, sleeps in *.
    destruct e; cbn in He |- *; try contradiction;
      repeat split; auto; try (constructor; auto).
    all: intros file' line' [[=]|Hin]; subst; eauto.
Qed.

Lemma ends_with_record_prepend (p : trace) (r : trace * outcome) :
  appended p = [] -> ~ In (expired_log self) p ->
  ends_with_record rt self r -> ends_with_record rt self (p +++ r).
Proof.
  intros Hp Hno [Happ | (t & v & Ht & Ha & Hn & Ho)].
  - left. now rewrite fst_prepend, appended_app, Hp, Happ.
  - right. exists (p ++ t), v. rewrite fst_prepend, snd_prepend, Ht.
    split; [now rewrite app_assoc|].
    split; [now rewrite appended_app, Hp, Ha|].
    split; [|exact Ho].
    intros [H|H]%in_app_or; auto.
Qed.

Lemma ReportChecker_poll_record (sleep0 : bool) (script : list poll_step) :
  forall count,
  ends_with_record rt self (ReportChecker_poll rt self sleep0 count script).
Proof.
  induction script as [|step rest IH]; intros count; [now left|].
  destruct (ReportChecker_poll_cases rt self sleep0 count step rest)
    as [[_ ->] | [[_ ->] | (t & o & Hend & ->)]].
  - apply ends_with_record_prepend; [reflexivity | | apply IH].
    intros H. repeat destruct H as [H|H]; try discriminate H. destruct H.
  - apply ends_with_record_prepend; [now destruct sleep0 | | apply IH].
    intros H. destruct sleep0;
      repeat destruct H as [H|H]; try discriminate H; destruct H.
  - destruct Hend as [response value Hr Hs Hv | response e Hr Hs Hv
                     | response Hr Hs Ht | response Hr Hlt H200 H202
                     | response Hr Hge]; try (left; reflexivity).
    right. exists [get_report self; report_successfully_retrieved self],
      value.
    split; [reflexivity|]. split; [reflexivity|]. split; [|reflexivity].
    intros H. repeat destruct H as [H|H]; try discriminate H. destruct H.
Qed.

(** A line that a poll run appends is its last event: the call returns
    right after it, and the run has not logged the expiry. *)
Theorem ReportChecker_record_is_last (sleep : bool)
  (script : list poll_step) (line : string) :
  In line (appended (fst (ReportChecker_connect rt self sleep script))) ->
  exists t,
    fst (ReportChecker_connect rt self sleep script) =
      t ++ [Append "results.csv" line]
    /\ appended t = []
    /\ ~ In (expired_log self) t
    /\ snd (ReportChecker_connect rt self sleep script) = Returned.
Proof.
  unfold ReportChecker_connect, ReportChecker_run.
  assert (H : ends_with_record rt self
                (sleep_before ReportChecker_cls sleep +++
                 ReportChecker_poll rt self sleep 0 script)).
  { apply ends_with_record_prepend;
      [now destruct sleep | | apply ReportChecker_poll_record].
    intros H. destruct sleep; [|destruct H].
    destruct H as [H|[]]. discriminate H. }
  destruct H as [-> | (t & v & Ht & Ha & Hn & Ho)]; [intros []|].
  rewrite Ht, appended_app, Ha. intros [<-|[]].
  exists t. now repeat split.
Qed.

(** Connections that time out send the poll run back into [connect] with
    the flag [connect] was called with: each one is logged as a warning
    and followed by the sleep of the new run and a new GET, without any
    cap, and the counter of the loop starts again from zero.  The
    creation time is kept: a 202 read past the deadline after them ends
    the run as expired. *)
Theorem ReportChecker_connect_timeouts (sleep0 : bool)
  (timeouts : list poll_step) (rest : list poll_step) :
  forallb (fun step => is_timed_out (get_reply step)) timeouts = true ->
  timeouts <> [] ->
  forall count,
  ReportChecker_poll rt self sleep0 count (timeouts ++ rest) =
    flat_map (fun _ => timeout_events self sleep0) timeouts +++
    ReportChecker_poll rt self sleep0 0 rest
  /\ (forall late response more,
        rest = late :: more ->
        get_reply late = Responded response ->
        status_code response = 202%Z ->
        (300 < utcnow late - timestamp_created self)%Q ->
        ReportChecker_poll rt self sleep0 count (timeouts ++ rest) =
        (flat_map (fun _ => timeout_events self sleep0) timeouts ++
         [get_report self; expired_log self], Returned)).
Proof.
  intros Hl Hne count.
  assert (Hrun : forall count,
            ReportChecker_poll rt self sleep0 count (timeouts ++ rest) =
            flat_map (fun _ => timeout_events self sleep0) timeouts +++
            ReportChecker_poll rt self sleep0 0 rest).
  { clear count. induction timeouts as [|a l IH]; [now destruct Hne|].
    intros count. cbn [forallb] in Hl. apply andb_prop in Hl as [Ha Hl].
    assert (Ha' : get_reply a = TimedOut)
      by (destruct (get_reply a); [discriminate | reflexivity]).
    cbn [app flat_map].
    rewrite (ReportChecker_poll_timed_out rt self _ _ _ _ Ha').
    destruct l as [|b l].
    - cbn [app flat_map]. unfold timeout_events. trace_eq.
    - rewrite (IH Hl) by discriminate. unfold timeout_events.
      unfold prepend; cbn [fst snd].
      repeat (progress (rewrite <- ?app_assoc; cbn [app])). reflexivity. }
  split; [apply Hrun|].
  intros late response more -> Hr Hs Ht. rewrite Hrun.
  rewrite (ReportChecker_poll_end rt self sleep0 0 late more
             [expired_log self] Returned); [reflexivity|].
  apply end_expired with response; auto using time_is_up_true.
Qed.

(** The deadline is strict: the time is up exactly when more than 300
    seconds have passed since the creation, and a 202 read at 300 seconds
    sharp is still a pending one, followed by the sleep and the next
    GET. *)
Theorem deadline_is_strict (sleep0 : bool) (count : nat) :
  (forall now,
      time_is_up self now = true <->
      (300 < now - timestamp_created self)%Q)
  /\ (forall step response rest,
        get_reply step = Responded response ->
        status_code response = 202%Z ->
        (utcnow step - timestamp_created self == 300)%Q ->
        ReportChecker_poll rt self sleep0 count (step :: rest) =
        [get_report self;
         still_not_available rt self
           (round1 rt (utcnow step - timestamp_created self)) (S count);
         Sleep 0.8] +++
        ReportChecker_poll rt self sleep0 (S count) rest).
Proof.
  split.
  - intros now. split; [apply time_is_up_late | apply time_is_up_true].
  - intros step response rest Hr Hs Ht.
    apply ReportChecker_poll_pending.
    unfold is_pending, replied_status. rewrite Hr, Hs.
    rewrite time_is_up_false; [reflexivity|].
    rewrite Ht. apply Qle_refl.
Qed.

(** Once a poll run has ended, nothing the environment would answer
    afterwards changes it: no request and no record follows. *)
Theorem ReportChecker_run_ended (sleep0 : bool) (script more : list poll_step) :
  forall count,
  snd (ReportChecker_poll rt self sleep0 count script) <> Suspended ->
  ReportChecker_poll rt self sleep0 count (script ++ more) =
  ReportChecker_poll rt self sleep0 count script.
Proof.
  induction script as [|step rest IH]; intros count H; [now destruct H|].
  cbn [app].
  destruct (ReportChecker_poll_cases rt self sleep0 count step rest)
    as [[Hp E] | [[Ht E] | (t & o & Hend & E)]]; rewrite E in *.
  - rewrite (ReportChecker_poll_pending rt self _ _ _ _ Hp).
    now rewrite IH.
  - rewrite (ReportChecker_poll_timed_out rt self _ _ _ _ Ht).
    now rewrite IH.
  - apply ReportChecker_poll_end. exact Hend.
Qed.

End CheckerMore.

(** End to end: the record of a report carries the date the server gave
    when it accepted the creation.  A checker gathered by the creation
    loop asks for the identifier that was posted, and when its report is
    ready the line it appends holds the parsed [date] header of the 201,
    whatever the clock read in between. *)
Theorem record_carries_creation_date (rt : Runtime) (sleep0 sleep : bool)
  (script : list attempt) (chk : ReportChecker) (poll_sleep : bool)
  (pendings : list poll_step) (ready : poll_step) (response : Response)
  (value : json) (more : list poll_step) :
  In chk (gathered (fst (ReportCreator_run rt sleep0 sleep script))) ->
  forallb (is_pending chk) pendings = true ->
  get_reply ready = Responded response ->
  status_code response = 200%Z ->
  json_value rt response = inr value ->
  exists a created date ts,
    In a script /\
    post_reply a = Responded created /\
    headers_getitem (headers created) "date" = Some date /\
    strptime_timestamp rt date = Some ts /\
    appended (fst (ReportChecker_connect rt chk poll_sleep
                     (pendings ++ ready :: more))) =
      [(format_float rt ts ++ ";" ++ format_value rt value ++
        String "\" (String "n" LF))%string] /\
    Forall (fun u => u = ("reports/" ++ uuid4 a)%string)
      (got_urls (fst (ReportChecker_connect rt chk poll_sleep
                        (pendings ++ ready :: more)))).
Proof.
  intros Hin Hp Hr Hs Hv.
  destruct (ReportCreator_posted_gathered rt sleep0 sleep script)
    as (k & _ & _ & Hg).
  rewrite Hg in Hin. apply in_flat_map in Hin as (a & Ha & Hchk).
  destruct (created_checker_inv rt a chk Hchk)
    as (Hid & created & date & Hc & _ & Hd & Hts).
  exists a, created, date, (timestamp_created chk).
  split; [rewrite <- (firstn_skipn k script); apply in_or_app; now left|].
  split; [exact Hc|]. split; [exact Hd|]. split; [exact Hts|].
  assert (Hend : poll_end rt chk ready
                   [report_successfully_retrieved chk;
                    Append "results.csv" (csv_line rt chk value)] Returned)
    by now apply end_ready with response.
  unfold ReportChecker_connect, ReportChecker_run.
  rewrite (ReportChecker_poll_pendings_end rt chk poll_sleep pendings ready
             more _ _ Hp Hend).
  rewrite fst_prepend. cbn [fst]. split.
  - rewrite !appended_app, appended_sleep_before, appended_pending_events.
    reflexivity.
  - rewrite <- Hid. unfold got_urls. rewrite !flat_map_app.
    apply Forall_app. split; [destruct poll_sleep; constructor|].
    apply Forall_app. split; [|repeat constructor].
    clear. generalize 0%nat as count.
    induction pendings as [|p l IH]; intros count; [constructor|].
    cbn [pending_events flat_map app]. constructor; [reflexivity|].
    apply IH.
Qed.

Lemma check_response_accepts_expected_witness :
  In (status_code (sample_response 202 [] ""))
    (_expected_2xx_status_codes ReportChecker_cls) /\
  _check_response ReportChecker_cls (sample_response 202 [] "") = None /\
  _check_response ReportCreator_cls (sample_response 202 [] "") <> None.
Proof.
  assert (Hin : In (status_code (sample_response 202 [] ""))
                  (_expected_2xx_status_codes ReportChecker_cls))
    by (right; left; reflexivity).
  split; [exact Hin|]. split.
  - exact (proj2 (check_response_accepts_expected _ _) Hin).
  - intros H.
    apply (proj1 (check_response_accepts_expected _ _)) in H.
    destruct H as [H|[]]. discriminate H.
Defined.

Lemma ReportChecker_trace_shape_witness :
  In (Append "results.csv" (csv_line sample_rt sample_checker (JString "x")))
    (fst (ReportChecker_connect sample_rt sample_checker true
            [pending_1; timed_out_step; ready_3])) /\
  filter is_post (fst (ReportChecker_connect sample_rt sample_checker true
                         [pending_1; timed_out_step; ready_3])) = [] /\
  Forall (fun u => u = "reports/u3"%string)
    (got_urls (fst (ReportChecker_connect sample_rt sample_checker true
                      [pending_1; timed_out_step; ready_3]))) /\
  Forall (fun q => q = 30%Q \/ q = 0.8%Q)
    (sleeps (fst (ReportChecker_connect sample_rt sample_checker true
                    [pending_1; timed_out_step; ready_3]))).
Proof.
  assert (Hin : In (Append "results.csv"
                      (csv_line sample_rt sample_checker (JString "x")))
                  (fst (ReportChecker_connect sample_rt sample_checker true
                          [pending_1; timed_out_step; ready_3]))).
  { cbn. do 9 right. left. reflexivity. }
  destruct (ReportChecker_trace_shape sample_rt sample_checker true
              [pending_1; timed_out_step; ready_3])
    as (Hp & _ & Hu & Hq & Hfile).
  split; [exact Hin|]. split; [exact Hp|]. split; [exact Hu | exact Hq].
Defined.

Lemma ReportChecker_record_is_last_witness :
  In ("1679230894.0;x" ++ String "\" (String "n" LF))%string
    (appended (fst (ReportChecker_connect sample_rt sample_checker true
                      [pending_1; timed_out_step; ready_3; late_3]))) /\
  snd (ReportChecker_connect sample_rt sample_checker true
         [pending_1; timed_out_step; ready_3; late_3]) = Returned.
Proof.
  assert (Hin : In ("1679230894.0;x" ++ String "\" (String "n" LF))%string
                  (appended
                     (fst (ReportChecker_connect sample_rt sample_checker
                             true
                             [pending_1; timed_out_step; ready_3; late_3]))))
    by (left; reflexivity).
  split; [exact Hin|].
  destruct (ReportChecker_record_is_last sample_rt sample_checker true _ _ Hin)
    as (t & _ & _ & _ & Ho).
  exact Ho.
Defined.

(** Two timeouts and then a 202 read 301 seconds after the creation. *)
Lemma ReportChecker_connect_timeouts_witness :
  ReportChecker_poll sample_rt sample_checker true 5
    ([timed_out_step; timed_out_step] ++ [late_3; ready_3]) =
  ([get_report sample_checker;
    Log WARNING (LStr st.CONNECTION_FAILED_MESSAGE); Sleep 30;
    get_report sample_checker;
    Log WARNING (LStr st.CONNECTION_FAILED_MESSAGE); Sleep 30;
    get_report sample_checker; expired_log sample_checker], Returned).
Proof.
  assert (Hne : [timed_out_step; timed_out_step] <> []) by discriminate.
  assert (Hlate : (300 < utcnow late_3 - timestamp_created sample_checker)%Q)
    by reflexivity.
  destruct (ReportChecker_connect_timeouts sample_rt sample_checker true
              [timed_out_step; timed_out_step] [late_3; ready_3]
              eq_refl Hne 5%nat) as (_ & H).
  exact (H late_3 _ [ready_3] eq_refl eq_refl eq_refl Hlate).
Defined.

(** A 202 read 300 seconds sharp after the creation, then one read a
    second later. *)
Lemma deadline_is_strict_witness :
  (utcnow (sample_step 202 "" (T0 + 300)) - timestamp_created sample_checker
   == 300)%Q /\
  ReportChecker_poll sample_rt sample_checker true 0
    [sample_step 202 "" (T0 + 300); late_3] =
  ([get_report sample_checker;
    still_not_available sample_rt sample_checker 300 1; Sleep 0.8;
    get_report sample_checker; expired_log sample_checker], Returned).
Proof.
  assert (H300 : (utcnow (sample_step 202 "" (T0 + 300)) -
                  timestamp_created sample_checker == 300)%Q)
    by reflexivity.
  split; [exact H300|].
  destruct (deadline_is_strict sample_rt sample_checker true 0) as (_ & H).
  rewrite (H (sample_step 202 "" (T0 + 300)) _ [late_3] eq_refl eq_refl H300).
  reflexivity.
Defined.

Lemma ReportChecker_run_ended_witness :
  snd (ReportChecker_poll sample_rt sample_checker true 0
         [pending_1; late_3]) <> Suspended /\
  ReportChecker_poll sample_rt sample_checker true 0
    ([pending_1; late_3] ++ [ready_3]) =
  ReportChecker_poll sample_rt sample_checker true 0 [pending_1; late_3].
Proof.
  assert (H : snd (ReportChecker_poll sample_rt sample_checker true 0
                     [pending_1; late_3]) <> Suspended) by discriminate.
  split; [exact H|].
  exact (ReportChecker_run_ended sample_rt sample_checker true _ [ready_3]
           0%nat H).
Defined.

(** A creation answered 201 with the sample date, and the poll of its
    checker: 202, 202, 200. *)
Lemma record_carries_creation_date_witness :
  In sample_checker
    (gathered (fst (ReportCreator_run sample_rt false false
                      [conflict_1; created_3]))) /\
  exists a created date ts,
    In a [conflict_1; created_3] /\
    post_reply a = Responded created /\
    headers_getitem (headers created) "date" = Some date /\
    strptime_timestamp sample_rt date = Some ts /\
    appended (fst (ReportChecker_connect sample_rt sample_checker true
                     ([pending_1; pending_2] ++ ready_3 :: []))) =
      [(format_float sample_rt ts ++ ";" ++
        format_value sample_rt (JString "x") ++
        String "\" (String "n" LF))%string] /\
    Forall (fun u => u = ("reports/" ++ uuid4 a)%string)
      (got_urls (fst (ReportChecker_connect sample_rt sample_checker true
                        ([pending_1; pending_2] ++ ready_3 :: [])))).
Proof.
  assert (Hin : In sample_checker
                  (gathered (fst (ReportCreator_run sample_rt false false
                                    [conflict_1; created_3]))))
    by (left; reflexivity).
  split; [exact Hin|].
  exact (record_carries_creation_date sample_rt false false _ _ true
           [pending_1; pending_2] ready_3 _ (JString "x") []
           Hin eq_refl eq_refl eq_refl eq_refl).
Defined.

(** ** Runs that go on *)

(** As long as every attempt is answered 409 or times out, the creation
    loop keeps trying: it is still waiting when the script is used up, it
    has posted the identifier of every attempt, and it has gathered no
    checker. *)
Theorem ReportCreator_keeps_running (rt : Runtime) (sleep0 : bool)
  (script : list attempt) :
  forallb is_retried script = true ->
  forall sleep,
  snd (ReportCreator_run rt sleep0 sleep script) = Suspended
  /\ posted_ids (fst (ReportCreator_run rt sleep0 sleep script)) =
     map uuid4 script
  /\ gathered (fst (ReportCreator_run rt sleep0 sleep script)) = [].
Proof.
  assert (Hsleep : forall s,
            posted_ids (sleep_before ReportCreator_cls s) = [] /\
            gathered (sleep_before ReportCreator_cls s) = [])
    by (intros []; now split).
  induction script as [|a rest IH]; intros Hall sleep.
  - cbn [ReportCreator_run]. rewrite fst_prepend, app_nil_r.
    now destruct sleep.
  - cbn [forallb] in Hall. apply andb_prop in Hall as [Ha Hrest].
    specialize (IH Hrest). destruct (Hsleep sleep) as (Hp & Hg).
    unfold is_retried in Ha. apply orb_prop in Ha as [Ha|Ha].
    + rewrite (ReportCreator_run_conflict _ _ _ _ _ Ha).
      destruct (IH false) as (IHs & IHp & IHg).
      rewrite snd_prepend, fst_prepend, !posted_ids_app.
      unfold gathered in *. rewrite !flat_map_app, Hp, Hg, IHs, IHp, IHg.
      unfold is_conflict, conflict_events, replied_status in *.
      destruct (post_reply a); [now repeat split | discriminate].
    + assert (Ha' : post_reply a = TimedOut)
        by (destruct (post_reply a); [discriminate | reflexivity]).
      rewrite (ReportCreator_run_timed_out _ _ _ _ _ Ha').
      destruct (IH sleep0) as (IHs & IHp & IHg).
      rewrite snd_prepend, fst_prepend, !posted_ids_app.
      unfold gathered in *. rewrite !flat_map_app, Hp, Hg, IHs, IHp, IHg.
      now repeat split.
Qed.

Lemma ReportCreator_keeps_running_witness :
  forallb is_retried [conflict_1; timed_out_attempt; conflict_2] = true /\
  snd (ReportCreator_run sample_rt false false
         [conflict_1; timed_out_attempt; conflict_2]) = Suspended /\
  posted_ids (fst (ReportCreator_run sample_rt false false
                     [conflict_1; timed_out_attempt; conflict_2])) =
    ["u1"; "u0"; "u2"]%string.
Proof.
  destruct (ReportCreator_keeps_running sample_rt false
              [conflict_1; timed_out_attempt; conflict_2]
              eq_refl false) as (Hs & Hp & _).
  split; [reflexivity|]. split; [exact Hs | exact Hp].
Defined.

(** As long as every answer is a 202 before the deadline or a timeout,
    the polling loop goes on: it is still waiting when the script is used
    up, it has sent one GET per step, and it has appended nothing. *)
Theorem ReportChecker_keeps_polling (rt : Runtime) (self : ReportChecker)
  (sleep0 : bool) (script : list poll_step) :
  forallb (keeps_polling self) script = true ->
  forall count,
  snd (ReportChecker_poll rt self sleep0 count script) = Suspended
  /\ List.length
       (got_urls (fst (ReportChecker_poll rt self sleep0 count script))) =
     List.length script
  /\ appended (fst (ReportChecker_poll rt self sleep0 count script)) = [].
Proof.
  induction script as [|step rest IH]; intros Hall count; [now repeat split|].
  cbn [forallb] in Hall. apply andb_prop in Hall as [Hstep Hrest].
  specialize (IH Hrest). unfold got_urls in *.
  destruct (ReportChecker_poll_cases rt self sleep0 count step rest)
    as [[_ ->] | [[_ ->] | (t & o & Hend & _)]].
  - destruct (IH (S count)) as (IHs & IHg & IHa).
    rewrite snd_prepend, fst_prepend, flat_map_app, appended_app, length_app.
    rewrite IHs, IHg, IHa. now repeat split.
  - destruct (IH 0%nat) as (IHs & IHg & IHa).
    rewrite snd_prepend, fst_prepend, !flat_map_app, !appended_app,
      !length_app.
    rewrite IHs, IHg, IHa, appended_sleep_before.
    destruct sleep0; now repeat split.
  - exfalso. unfold keeps_polling, is_pending, replied_status in Hstep.
    destruct Hend as [response value Hr Hs Hv | response e Hr Hs Hv
                     | response Hr Hs Ht | response Hr Hlt H200 H202
                     | response Hr Hge];
      rewrite Hr in Hstep; cbn [is_timed_out] in Hstep;
      rewrite orb_false_r in Hstep;
      apply andb_prop in Hstep as [Hcode Hup];
      apply Z.eqb_eq in Hcode.
    + rewrite Hs in Hcode. discriminate Hcode.
    + rewrite Hs in Hcode. discriminate Hcode.
    + rewrite Ht in Hup. discriminate Hup.
    + contradiction.
    + unfold st.REPORT_STILL_NOT_AVAILABLE_STATUS_CODE in Hcode. lia.
Qed.

Lemma ReportChecker_keeps_polling_witness :
  forallb (keeps_polling sample_checker)
    [pending_1; timed_out_step; pending_2] = true /\
  snd (ReportChecker_poll sample_rt sample_checker true 0
         [pending_1; timed_out_step; pending_2]) = Suspended /\
  got_urls (fst (ReportChecker_poll sample_rt sample_checker true 0
                   [pending_1; timed_out_step; pending_2])) =
    ["reports/u3"; "reports/u3"; "reports/u3"]%string.
Proof.
  destruct (ReportChecker_keeps_polling sample_rt sample_checker true
              [pending_1; timed_out_step; pending_2] eq_refl 0%nat)
    as (Hs & _ & _).
  split; [reflexivity|]. split; [exact Hs | reflexivity].
Defined.

(** The counter of the polling loop: the debug record of the pending
    answer number [i] (from zero) of a run reports [i + 1] GET requests,
    with the rounded time elapsed at that answer. *)
Theorem pending_polls_are_counted (rt : Runtime) (self : ReportChecker)
  (sleep0 : bool) (pendings rest : list poll_step) :
  forallb (is_pending self) pendings = true ->
  forall i step,
  nth_error pendings i = Some step ->
  In (still_not_available rt self
        (round1 rt (utcnow step - timestamp_created self)) (S i))
     (fst (ReportChecker_poll rt self sleep0 0 (pendings ++ rest))).
Proof.
  intros Hp i step Hi.
  change (S i) with (S (0 + i)). generalize 0%nat as count. revert i Hi.
  induction pendings as [|p l IH]; intros i Hi count;
    [now destruct i|].
  cbn [forallb] in Hp. apply andb_prop in Hp as [Hp Hl].
  cbn [app]. rewrite (ReportChecker_poll_pending rt self _ _ _ _ Hp).
  rewrite fst_prepend. destruct i as [|i]; cbn [nth_error] in Hi.
  - injection Hi as ->. rewrite Nat.add_0_r. right. left. reflexivity.
  - apply in_or_app. right.
    replace (S (count + S i)) with (S (S count + i)) by lia.
    now apply IH.
Qed.

Lemma pending_polls_are_counted_witness :
  In (still_not_available sample_rt sample_checker 32 2)
     (fst (ReportChecker_poll sample_rt sample_checker true 0
             ([pending_1; pending_2] ++ [ready_3]))).
Proof.
  exact (pending_polls_are_counted sample_rt sample_checker true
           [pending_1; pending_2] [ready_3] eq_refl 1%nat pending_2 eq_refl).
Defined.
